(** * LinkedIn MCP client and browser session manager: a shallow embedding

    The development follows these source modules:
    - [linkedin_mcp_client/client.py] (class [LinkedInMCPClient]) and
      [linkedin_mcp_client/exceptions.py];
    - [linkedin_mcp_server/drivers/browser.py] (the browser singleton and
      its credential resolution);
    - [linkedin_mcp_server/tools/job.py] (the two job tools);
    - [cli.py] (the one-shot commands and [run()]);
    - [backend/linkedin_utils.py] and [backend/main.py] (the names taken
      from URLs, the search workflow and the [/search] endpoint).

    Python objects that cross the wire are JSON values; a Python [dict] is a
    finite map with string keys.  Exceptions are an explicit result type and
    the mutable client object is threaded through a state-and-error monad.
    What the code gets from outside (the JSON library, the operating system,
    the HTTP endpoint, the scraping library) is an interface whose answers
    are inputs of the model. *)

From Stdlib Require Import ZArith Lia Ascii String.
From stdpp Require Import base gmap strings list.

Set Warnings "-register-all".
Open Scope Z_scope.

(** ** Python values *)

(** The values [json.loads] produces and [json.dumps] accepts.  Numbers are
    the integers: request ids and error codes, the only numbers the modelled
    code inspects, are integers on this protocol. *)
Inductive json :=
| JNull
| JBool (b : bool)
| JInt (n : Z)
| JStr (s : string)
| JList (l : list json)
| JDict (d : gmap string json).

(** Truth value of an object in a condition ([if x:], [x or y]). *)
Definition py_truthy (v : json) : bool :=
  match v with
  | JNull => false
  | JBool b => b
  | JInt n => negb (n =? 0)
  | JStr s => negb (String.eqb s "")
  | JList l => match l with [] => false | _ => true end
  | JDict d => negb (bool_decide (d = ∅))
  end.

(** [x or y] *)
Definition py_or (x y : json) : json := if py_truthy x then x else y.

(** [x is not None] *)
Definition is_not_None (v : json) : bool :=
  match v with JNull => false | _ => true end.

(** [x == n] for an integer literal [n] other than 0 and 1 (so that no
    [bool] compares equal to it). *)
Definition py_eq_int (v : json) (n : Z) : bool :=
  match v with JInt m => m =? n | _ => false end.

(** Substring test, the meaning of [key in s] on a [str]. *)
Fixpoint str_contains (needle hay : string) : bool :=
  String.prefix needle hay ||
  match hay with
  | EmptyString => false
  | String _ hay' => str_contains needle hay'
  end.

(** ** Exceptions *)

(** The exception classes that occur on the modelled paths: the four of
    [exceptions.py], those of [httpx] and of the standard library, and the
    two of the scraping library used by [browser.py]. *)
Inductive exn_class :=
| LinkedInMCPError
| LinkedInMCPConnectionError
| LinkedInMCPToolError
| LinkedInMCPAuthenticationError
| HTTPError            (* httpx.HTTPError *)
| RequestError         (* httpx.RequestError: transport-level failure *)
| HTTPStatusError      (* httpx.HTTPStatusError: raise_for_status() *)
| JSONDecodeError
| UnicodeDecodeError
| ValueError
| TypeError
| AttributeError
| OSError
| BrokenPipeError      (* a write to a pipe nobody reads *)
| PermissionError
| RecursionError
| TimeoutExpired       (* subprocess.TimeoutExpired *)
| AuthenticationError  (* linkedin_scraper.AuthenticationError *)
| RateLimitError       (* linkedin_scraper.RateLimitError *)
| PlaywrightError
| PyException.         (* Exception itself *)

(** The direct base class.  [exceptions.py] derives the three client errors
    from [LinkedInMCPError]; in httpx both [RequestError] and
    [HTTPStatusError] derive from [HTTPError], neither from the other.
    Python's built-in [ConnectionError], which stands between
    [BrokenPipeError] and [OSError], and [RuntimeError], the base of
    [RecursionError], are left out: nothing here catches them, and neither
    is related to [LinkedInMCPConnectionError]. *)
Definition base_class (c : exn_class) : option exn_class :=
  match c with
  | PyException => None
  | LinkedInMCPError => Some PyException
  | LinkedInMCPConnectionError => Some LinkedInMCPError
  | LinkedInMCPToolError => Some LinkedInMCPError
  | LinkedInMCPAuthenticationError => Some LinkedInMCPError
  | HTTPError => Some PyException
  | RequestError => Some HTTPError
  | HTTPStatusError => Some HTTPError
  | JSONDecodeError => Some ValueError
  | UnicodeDecodeError => Some ValueError
  | ValueError => Some PyException
  | TypeError => Some PyException
  | AttributeError => Some PyException
  | OSError => Some PyException
  | BrokenPipeError => Some OSError
  | PermissionError => Some OSError
  | RecursionError => Some PyException
  | TimeoutExpired => Some PyException
  | AuthenticationError => Some PyException
  | RateLimitError => Some PyException
  | PlaywrightError => Some PyException
  end.

Global Instance exn_class_eq_dec : EqDecision exn_class.
Proof. solve_decision. Defined.

Fixpoint subclass_upto (fuel : nat) (c d : exn_class) : bool :=
  bool_decide (c = d) ||
  match fuel with
  | O => false
  | S fuel' =>
      match base_class c with
      | Some b => subclass_upto fuel' b d
      | None => false
      end
  end.

(** [issubclass c d]; the hierarchy above has depth three. *)
Definition issubclass (c d : exn_class) : bool := subclass_upto 3 c d.

(** The argument an exception is built from: a literal, a value passed as
    it is, or an f-string with one interpolated value or exception. *)
Inductive message :=
| MLit (s : string)
| MVal (v : json)
| MFmt (prefix : string) (v : json)
| MFmtExn (prefix : string) (c : exn_class) (m : message).

Record exn := Exn { exn_cls : exn_class; exn_msg : message }.

Inductive result (A : Type) :=
| Ok (a : A)
| Raise (e : exn).
Arguments Ok {A} a.
Arguments Raise {A} e.

Definition raises {A} (r : result A) (c : exn_class) : Prop :=
  match r with
  | Ok _ => False
  | Raise e => exn_cls e = c
  end.

(** ** Operations on dynamically typed values *)

(** [key in v] *)
Definition py_in (key : string) (v : json) : result bool :=
  match v with
  | JDict d => Ok (bool_decide (is_Some (d !! key)))
  | JList l =>
      Ok (existsb (fun x => match x with
                            | JStr s => String.eqb s key
                            | _ => false
                            end) l)
  | JStr s => Ok (str_contains key s)
  | _ => Raise (Exn TypeError (MLit "argument is not iterable"))
  end.

(** [v[key]] for a string key; guarded by [key in v] wherever the code uses
    it, so the [KeyError] case of a dict does not arise and is reported as
    the default. *)
Definition py_getitem (v : json) (key : string) : result json :=
  match v with
  | JDict d => Ok (default JNull (d !! key))
  | _ => Raise (Exn TypeError (MLit "indices must be integers"))
  end.

(** [v.get(key, dflt)] *)
Definition py_get (v : json) (key : string) (dflt : json) : result json :=
  match v with
  | JDict d => Ok (default dflt (d !! key))
  | _ => Raise (Exn AttributeError (MLit "object has no attribute 'get'"))
  end.

(** ** Text *)

(** A Python [bytes] value and a Python [str] are both Rocq strings: the
    [str] is kept in its UTF-8 encoding.  [bytes.decode()] then is the
    identity on well-formed UTF-8 and raises [UnicodeDecodeError]
    otherwise. *)
Definition byte_in (lo hi : N) (a : ascii) : bool :=
  let n := N_of_ascii a in ((lo <=? n) && (n <=? hi))%N.

Definition cont (a : ascii) : bool := byte_in 128 191 a.

Fixpoint utf8_valid (s : string) : bool :=
  match s with
  | EmptyString => true
  | String a s1 =>
      if byte_in 0 127 a then utf8_valid s1
      else
        match s1 with
        | EmptyString => false
        | String b s2 =>
            if byte_in 194 223 a then cont b && utf8_valid s2
            else
              match s2 with
              | EmptyString => false
              | String c s3 =>
                  if byte_in 224 239 a then
                    (if byte_in 224 224 a then byte_in 160 191 b
                     else if byte_in 237 237 a then byte_in 128 159 b
                     else cont b)
                    && cont c && utf8_valid s3
                  else
                    match s3 with
                    | EmptyString => false
                    | String d s4 =>
                        byte_in 240 244 a
                        && (if byte_in 240 240 a then byte_in 144 191 b
                            else if byte_in 244 244 a then byte_in 128 143 b
                            else cont b)
                        && cont c && cont d && utf8_valid s4
                    end
              end
        end
  end.

Definition decode (line : string) : result string :=
  if utf8_valid line then Ok line
  else Raise (Exn UnicodeDecodeError (MLit "invalid utf-8")).

Definition chr (n : N) : string := String (ascii_of_N n) EmptyString.

(** The characters [str.strip()] removes (those with [str.isspace()]), in
    UTF-8: U+0009..U+000D, U+001C..U+0020, U+0085, U+00A0, U+1680,
    U+2000..U+200A, U+2028, U+2029, U+202F, U+205F, U+3000. *)
Definition whitespace : list string :=
  map chr [9; 10; 11; 12; 13; 28; 29; 30; 31; 32]%N
  ++ map (fun n => chr 194 +:+ chr n) [133; 160]%N
  ++ [chr 225 +:+ chr 154 +:+ chr 128]
  ++ map (fun n => chr 226 +:+ chr 128 +:+ chr n)
         [128; 129; 130; 131; 132; 133; 134; 135; 136; 137; 138;
          168; 169; 175]%N
  ++ [chr 226 +:+ chr 129 +:+ chr 159; chr 227 +:+ chr 128 +:+ chr 128].

(** Drop one whitespace character from the front, if there is one. *)
Fixpoint drop_prefix_of (ws : list string) (s : string) : option string :=
  match ws with
  | [] => None
  | w :: ws' =>
      if String.prefix w s
      then Some (String.substring (String.length w)
                                  (String.length s - String.length w) s)
      else drop_prefix_of ws' s
  end.

Fixpoint lstrip_upto (fuel : nat) (ws : list string) (s : string) : string :=
  match fuel with
  | O => s
  | S fuel' =>
      match drop_prefix_of ws s with
      | Some s' => lstrip_upto fuel' ws s'
      | None => s
      end
  end.

Definition lstrip (s : string) : string :=
  lstrip_upto (String.length s) whitespace s.

Definition rstrip (s : string) : string :=
  String.rev
    (lstrip_upto (String.length s) (map String.rev whitespace) (String.rev s)).

(** [s.strip()] *)
Definition strip (s : string) : string := rstrip (lstrip s).

Definition str_empty (s : string) : bool :=
  match s with EmptyString => true | _ => false end.

(** [s.replace(old, new)] for a non-empty [old]: [skip] counts the
    characters of a match still to be passed over. *)
Fixpoint replace_from (old new : string) (skip : nat) (s : string) : string :=
  match s with
  | EmptyString => EmptyString
  | String a s' =>
      match skip with
      | S k => replace_from old new k s'
      | O =>
          if String.prefix old s
          then new +:+ replace_from old new (String.length old - 1) s'
          else String a (replace_from old new 0 s')
      end
  end.

Definition str_replace (old new s : string) : string :=
  replace_from old new 0 s.

(** ** The state-and-error monad

    A computation reads and updates the object it runs on and either
    returns a value or raises.  State changes made before an exception is
    raised stay, as in Python. *)
Definition M (S A : Type) : Type := S -> result A * S.

Global Instance M_ret {S} : MRet (M S) := fun A a s => (Ok a, s).

Global Instance M_bind {S} : MBind (M S) := fun A B f m s =>
  match m s with
  | (Ok a, s') => f a s'
  | (Raise e, s') => (Raise e, s')
  end.

Definition get {S} : M S S := fun s => (Ok s, s).
Definition modify {S} (f : S -> S) : M S unit := fun s => (Ok tt, f s).
Definition raise {S A} (c : exn_class) (m : message) : M S A :=
  fun s => (Raise (Exn c m), s).
Definition lift {S A} (r : result A) : M S A := fun s => (r, s).

(** [try: body / except cls as e: handler e] *)
Definition try_except {S A} (body : M S A) (cls : exn_class)
    (handler : exn -> M S A) : M S A := fun s =>
  match body s with
  | (Raise e, s') =>
      if issubclass (exn_cls e) cls then handler e s' else (Raise e, s')
  | r => r
  end.

(** [try: body / except: handler] (a bare [except] catches everything) *)
Definition try_except_all {S A} (body : M S A) (handler : M S A) : M S A :=
  fun s =>
  match body s with
  | (Raise e, s') => handler s'
  | r => r
  end.

(** [try: body / finally: cleanup] *)
Definition try_finally {S A} (body : M S A) (cleanup : M S unit) : M S A :=
  fun s =>
  match body s with
  | (r, s') =>
      match cleanup s' with
      | (Ok _, s'') => (r, s'')
      | (Raise e, s'') => (Raise e, s'')
      end
  end.

(** * The protocol client ([linkedin_mcp_client/client.py]) *)

Module Client.

(** ** What the client talks to *)

(** A child process as the client sees it.  [stdout] lists what the
    successive calls of [process.stdout.readline] will return while the
    child's output stream is open; once the list is used up the stream is
    closed and [readline] returns the empty bytes object.
    [exits_on_terminate] says whether [wait(timeout=5)] returns in time
    after [terminate()]. *)
Record Popen := {
  stdout : list string;
  exits_on_terminate : bool
}.

(** What [client.post] gives: an exception of class [httpx.RequestError]
    (connection refused, time-out, ...), or a response. *)
Inductive http_outcome :=
| NetworkFailure (detail : string)
| HttpResponse (status_code : Z) (body : string).

(** What the client does to the outside, in order. *)
Inductive event :=
| Spawn (cmd : list string)
| Write (msg : json)          (* one JSON line handed to the child's stdin:
                                 [stdin.write] and [flush], which may raise *)
| Read (line : string)        (* what readline returned *)
| Stderr (text : string)      (* the "Ignored server output" print *)
| Terminate
| Wait (exited : bool)
| Kill
| Post (url : string) (body : json)
| Get (url : string).

(** What [json.loads] makes of a text: the value, or one of the exceptions
    it raises on a [str]. *)
Inductive parse :=
| Parsed (v : json)
| NotJSON        (* json.JSONDecodeError: the text is not JSON *)
| DigitLimit     (* ValueError: an integer of more digits than the
                    interpreter converts (4300 by default) *)
| TooDeep.       (* RecursionError: arrays or objects nested too deep *)

(** The collaborators outside the repository. *)
Class Runtime := {
  (** the JSON library *)
  json_parse : string -> parse;
  (** [subprocess.Popen(command, ...)]; [None] stands for [OSError] *)
  spawn : list string -> option Popen;
  (** whether the pipe to the child's stdin is broken (the child has
      exited or closed it), after what has happened so far: a write then
      raises [BrokenPipeError] *)
  stdin_broken : list event -> bool;
  (** [httpx.AsyncClient.post(url, json=request)] *)
  http_post : string -> json -> http_outcome
}.

(** ** The client object *)

Record LinkedInMCPClient := {
  transport : string;
  command : list string;
  http_url : string;
  timeout : Z;
  process : option Popen;
  request_id : Z;
  _lock : bool;               (* asyncio.Lock(): [true] while held *)
  trace : list event          (* ghost: the events so far, oldest first *)
}.

Definition set_process (p : option Popen) (self : LinkedInMCPClient) :=
  {| transport := transport self; command := command self;
     http_url := http_url self; timeout := timeout self;
     process := p; request_id := request_id self;
     _lock := _lock self; trace := trace self |}.

Definition set_request_id (n : Z) (self : LinkedInMCPClient) :=
  {| transport := transport self; command := command self;
     http_url := http_url self; timeout := timeout self;
     process := process self; request_id := n;
     _lock := _lock self; trace := trace self |}.

Definition log (evs : list event) (self : LinkedInMCPClient) :=
  {| transport := transport self; command := command self;
     http_url := http_url self; timeout := timeout self;
     process := process self; request_id := request_id self;
     _lock := _lock self; trace := trace self ++ evs |}.

Definition emit (ev : event) : M LinkedInMCPClient unit := modify (log [ev]).

(** [__init__] *)
Definition __init__ (transport : string) (command : option (list string))
    (http_url : option string) (timeout : Z) : LinkedInMCPClient :=
  {| transport := transport;
     command :=
       match command with
       | Some (c :: cs) => c :: cs
       | _ => ["uvx"; "--from";
               "git+https://github.com/stickerdaniel/linkedin-mcp-server";
               "linkedin-mcp-server"]
       end;
     http_url :=
       match http_url with
       | Some u => if str_empty u then "http://127.0.0.1:8000/mcp" else u
       | None => "http://127.0.0.1:8000/mcp"
       end;
     timeout := timeout;
     process := None;
     request_id := 0;
     _lock := false;
     trace := [] |}.

Section Operations.
Context `{Runtime}.

(** ** Request ids *)

Definition _get_next_id : M LinkedInMCPClient Z := fun self =>
  let self := set_request_id (request_id self + 1) self in
  (Ok (request_id self), self).

(** ** Reading from the child *)

(** [json.loads] *)
Definition json_loads (text : string) : result json :=
  match json_parse text with
  | Parsed v => Ok v
  | NotJSON => Raise (Exn JSONDecodeError (MLit "Expecting value"))
  | DigitLimit =>
      Raise (Exn ValueError
                 (MLit "Exceeds the limit (4300 digits) for integer string conversion"))
  | TooDeep =>
      Raise (Exn RecursionError (MLit "maximum recursion depth exceeded"))
  end.

(** What [except json.JSONDecodeError] catches. *)
Definition is_decode_error (e : exn) : bool :=
  issubclass (exn_cls e) JSONDecodeError.

(** A text that [json.loads] rejects as not being JSON. *)
Definition not_json (text : string) : bool :=
  match json_loads text with
  | Ok _ => false
  | Raise e => is_decode_error e
  end.

(** The loop of [_read_next_json_message] over the output still to come:
    the result, the output left unread, and the events. *)
Fixpoint read_loop (out : list string)
    : result json * list string * list event :=
  match out with
  | [] =>
      (Raise (Exn LinkedInMCPConnectionError (MLit "Server closed connection")),
       [], [Read ""])
  | line :: rest =>
      if str_empty line then
        (Raise (Exn LinkedInMCPConnectionError
                    (MLit "Server closed connection")),
         rest, [Read line])
      else
        match decode line with
        | Raise e => (Raise e, rest, [Read line])
        | Ok text =>
            let decoded_line := strip text in
            if str_empty decoded_line then
              let '(r, rest', evs) := read_loop rest in
              (r, rest', Read line :: evs)
            else
              match json_loads decoded_line with
              | Ok v => (Ok v, rest, [Read line])
              | Raise e =>
                  if is_decode_error e then
                    let '(r, rest', evs) := read_loop rest in
                    (r, rest', Read line :: Stderr decoded_line :: evs)
                  else (Raise e, rest, [Read line])
              end
        end
  end.

Definition _read_next_json_message : M LinkedInMCPClient json := fun self =>
  match process self with
  | None =>
      (Raise (Exn AttributeError
                  (MLit "'NoneType' object has no attribute 'stdout'")),
       self)
  | Some p =>
      let '(r, rest, evs) := read_loop (stdout p) in
      (r, log evs
            (set_process
               (Some {| stdout := rest;
                        exits_on_terminate := exits_on_terminate p |})
               self))
  end.

(** What a write to a broken pipe raises. *)
Definition broken_pipe : exn :=
  Exn BrokenPipeError (MLit "[Errno 32] Broken pipe").

(** [self.process.stdin.write(...)] followed by [flush()]: the line goes
    out, or the pipe is broken and [BrokenPipeError] is raised. *)
Definition stdin_write (msg : json) : M LinkedInMCPClient unit := fun self =>
  (if stdin_broken (trace self) then Raise broken_pipe else Ok tt,
   log [Write msg] self).

(** ** Sending a request *)

Definition make_request (id : Z) (method : string) (params : json) : json :=
  JDict {[ "jsonrpc" := JStr "2.0";
           "id" := JInt id;
           "method" := JStr method;
           "params" := py_or params (JDict ∅) ]}.

(** What both transports do with the response they have got (lines 94-103
    and 124-133 of the source are the same code), as a function of the
    response. *)
Definition response_outcome (response : json) : result json :=
  match py_in "error" response with
  | Raise e => Raise e
  | Ok true =>
      match py_getitem response "error" with
      | Raise e => Raise e
      | Ok error =>
          match py_get error "message" (JStr "Unknown error") with
          | Raise e => Raise e
          | Ok error_msg =>
              match py_get error "code" (JInt (-1)) with
              | Raise e => Raise e
              | Ok error_code =>
                  if py_eq_int error_code (-32000)
                  then Raise (Exn LinkedInMCPAuthenticationError (MVal error_msg))
                  else Raise (Exn LinkedInMCPToolError
                                  (MFmt "Server error: " error_msg))
              end
          end
      end
  | Ok false => py_get response "result" (JDict ∅)
  end.

Definition _send_request_stdio (method : string) (params : json)
    : M LinkedInMCPClient json :=
  self ← get;
  match process self with
  | None =>
      raise LinkedInMCPConnectionError
            (MLit "Server process not started. Call connect() first.")
  | Some _ =>
      id ← _get_next_id;
      let request := make_request id method params in
      stdin_write request;;
      response ← _read_next_json_message;
      has_error ← lift (py_in "error" response);
      if has_error : bool then
        error ← lift (py_getitem response "error");
        error_msg ← lift (py_get error "message" (JStr "Unknown error"));
        error_code ← lift (py_get error "code" (JInt (-1)));
        if py_eq_int error_code (-32000)
        then raise LinkedInMCPAuthenticationError (MVal error_msg)
        else raise LinkedInMCPToolError (MFmt "Server error: " error_msg)
      else
        lift (py_get response "result" (JDict ∅))
  end.

(** [response.raise_for_status()]: httpx raises [HTTPStatusError] unless
    the status is a 2xx one. *)
Definition raise_for_status (status_code : Z) : M LinkedInMCPClient unit :=
  if (200 <=? status_code) && (status_code <=? 299) then mret tt
  else raise HTTPStatusError (MVal (JInt status_code)).

(** [response.json()] *)
Definition response_json (body : string) : M LinkedInMCPClient json :=
  lift (json_loads body).

Definition _send_request_http (method : string) (params : json)
    : M LinkedInMCPClient json :=
  id ← _get_next_id;
  let request := make_request id method params in
  self ← get;
  try_except
    (emit (Post (http_url self) request);;
     match http_post (http_url self) request with
     | NetworkFailure detail => raise RequestError (MLit detail)
     | HttpResponse status_code body =>
         raise_for_status status_code;;
         result ← response_json body;
         has_error ← lift (py_in "error" result);
         if has_error : bool then
           error ← lift (py_getitem result "error");
           error_msg ← lift (py_get error "message" (JStr "Unknown error"));
           error_code ← lift (py_get error "code" (JInt (-1)));
           if py_eq_int error_code (-32000)
           then raise LinkedInMCPAuthenticationError (MVal error_msg)
           else raise LinkedInMCPToolError (MFmt "Server error: " error_msg)
         else
           lift (py_get result "result" (JDict ∅))
     end)
    RequestError
    (fun e => raise LinkedInMCPConnectionError
                    (MFmtExn "HTTP request failed: " (exn_cls e) (exn_msg e))).

Definition _send_request (method : string) (params : json)
    : M LinkedInMCPClient json :=
  self ← get;
  if String.eqb (transport self) "stdio" then _send_request_stdio method params
  else if String.eqb (transport self) "http" then _send_request_http method params
  else raise LinkedInMCPError (MFmt "Unknown transport: " (JStr (transport self))).


(** ** Handshake and lifecycle *)

Definition init_request : json :=
  JDict {[ "jsonrpc" := JStr "2.0";
           "id" := JInt 1;
           "method" := JStr "initialize";
           "params" :=
             JDict {[ "protocolVersion" := JStr "2024-11-05";
                      "capabilities" := JDict ∅;
                      "clientInfo" :=
                        JDict {[ "name" := JStr "linkedin-mcp-client";
                                 "version" := JStr "0.1.0" ]} ]} ]}.

Definition initialized : json :=
  JDict {[ "jsonrpc" := JStr "2.0";
           "method" := JStr "notifications/initialized" ]}.

Definition _initialize : M LinkedInMCPClient unit :=
  stdin_write init_request;;
  response ← _read_next_json_message;
  has_error ← lift (py_in "error" response);
  if has_error : bool then
    error ← lift (py_getitem response "error");
    raise LinkedInMCPConnectionError (MFmt "Initialize failed: " error)
  else
    stdin_write initialized.

Definition Popen_start (cmd : list string) : M LinkedInMCPClient unit :=
  emit (Spawn cmd);;
  match spawn cmd with
  | Some p => modify (set_process (Some p))
  | None => raise OSError (MLit "No such file or directory")
  end.

(** The liveness probe of the HTTP transport; whatever it raises is
    swallowed by the caller. *)
Definition health_probe : M LinkedInMCPClient unit :=
  self ← get;
  emit (Get (str_replace "/mcp" "/health" (http_url self))).

Definition connect : M LinkedInMCPClient unit :=
  self ← get;
  if String.eqb (transport self) "stdio" then
    match process self with
    | None =>
        try_except
          (Popen_start (command self);;
           _initialize)
          PyException
          (fun e => raise LinkedInMCPConnectionError
                          (MFmtExn "Failed to start server: "
                                   (exn_cls e) (exn_msg e)))
    | Some _ => mret tt
    end
  else if String.eqb (transport self) "http" then
    try_except_all health_probe (mret tt)
  else mret tt.

(** [self.process.wait(timeout=5)] *)
Definition Popen_wait : M LinkedInMCPClient unit :=
  self ← get;
  match process self with
  | Some p =>
      emit (Wait (exits_on_terminate p));;
      if exits_on_terminate p then mret tt
      else raise TimeoutExpired (MLit "timed out after 5 seconds")
  | None => raise AttributeError (MLit "'NoneType' object has no attribute 'wait'")
  end.

Definition disconnect : M LinkedInMCPClient unit :=
  self ← get;
  match process self with
  | Some _ =>
      emit Terminate;;
      try_except Popen_wait TimeoutExpired (fun _ => emit Kill);;
      modify (set_process None)
  | None => mret tt
  end.

(** ** The tool facade *)

Definition list_tools : M LinkedInMCPClient json :=
  result ← _send_request "tools/list" (JDict ∅);
  lift (py_get result "tools" (JList [])).

Definition call_tool (name : string) (arguments : json)
    : M LinkedInMCPClient json :=
  _send_request "tools/call"
    (JDict {[ "name" := JStr name; "arguments" := arguments ]}).

Definition get_person_profile (url : json) : M LinkedInMCPClient json :=
  call_tool "get_person_profile" (JDict {[ "url" := url ]}).

Definition get_company_profile (url : json) : M LinkedInMCPClient json :=
  call_tool "get_company_profile" (JDict {[ "url" := url ]}).

(** The [args] dictionary [get_company_posts] builds. *)
Definition get_company_posts_args (url limit : json) : gmap string json :=
  let args : gmap string json := {[ "url" := url ]} in
  let args := if is_not_None limit then <["limit" := limit]> args else args in
  args.

Definition get_company_posts (url limit : json) : M LinkedInMCPClient json :=
  call_tool "get_company_posts" (JDict (get_company_posts_args url limit)).

(** The [args] dictionary [search_jobs] builds. *)
Definition search_jobs_args (keywords location limit time_posted : json)
    : gmap string json :=
  let args : gmap string json := ∅ in
  let args := if py_truthy keywords
              then <["keywords" := keywords]> args else args in
  let args := if py_truthy location
              then <["location" := location]> args else args in
  let args := if py_truthy limit
              then <["limit" := limit]> args else args in
  let args := if py_truthy time_posted
              then <["time_posted" := time_posted]> args else args in
  args.

Definition search_jobs (keywords location limit time_posted : json)
    : M LinkedInMCPClient json :=
  call_tool "search_jobs"
            (JDict (search_jobs_args keywords location limit time_posted)).

Definition get_job_details (url : json) : M LinkedInMCPClient json :=
  call_tool "get_job_details" (JDict {[ "url" := url ]}).

Definition close_session : M LinkedInMCPClient json :=
  call_tool "close_session" (JDict ∅).

(** [async with client.session(): body] *)
Definition session {A} (body : M LinkedInMCPClient A) : M LinkedInMCPClient A :=
  connect;;
  try_finally body disconnect.

(** A caller that issues the given requests one after the other and goes
    on after an exception. *)
Fixpoint calls (requests : list (string * json)) (self : LinkedInMCPClient)
    : LinkedInMCPClient :=
  match requests with
  | [] => self
  | (method, params) :: requests' =>
      calls requests' (snd (_send_request method params self))
  end.

(** The messages written to the wire so far that carry an id, i.e. the
    requests, with their ids; oldest first. *)
Definition request_id_of (msg : json) : option json :=
  match msg with
  | JDict d => d !! "id"
  | _ => None
  end.

Definition sent_ids (evs : list event) : list json :=
  omap (fun ev => match ev with
                  | Write msg => request_id_of msg
                  | Post _ msg => request_id_of msg
                  | _ => None
                  end) evs.


End Operations.
End Client.

(** * Concurrent calls on one client

    asyncio runs coroutines on one thread and switches between them only
    where one is suspended.  In [_send_request_stdio] that is the
    [await asyncio.to_thread(self.process.stdout.readline)] inside
    [_read_next_json_message]: everything up to the write of the request
    runs without interruption, then the coroutine is suspended once per
    line it reads.  A task is a call of [_send_request_stdio] in one of
    these stages. *)

Module Tasks.
Import Client.

Inductive task :=
| Created (method : string) (params : json)   (* not yet run *)
| AwaitingLine                                (* request written, suspended in readline *)
| Finished (r : result json).

Section Scheduler.
Context `{Runtime}.

(** One pass through the body of the loop of [_read_next_json_message]:
    [None] when the loop goes round again. *)
Definition read_one (line : string) : option (result json) * list event :=
  if str_empty line then
    (Some (Raise (Exn LinkedInMCPConnectionError
                      (MLit "Server closed connection"))), [Read line])
  else
    match decode line with
    | Raise e => (Some (Raise e), [Read line])
    | Ok text =>
        let decoded_line := strip text in
        if str_empty decoded_line then (None, [Read line])
        else
          match json_loads decoded_line with
          | Ok v => (Some (Ok v), [Read line])
          | Raise e =>
              if is_decode_error e then (None, [Read line; Stderr decoded_line])
              else (Some (Raise e), [Read line])
          end
    end.

(** [readline] on the child's output: the next line, or the empty bytes
    object once the stream is closed. *)
Definition readline (p : Popen) : string * Popen :=
  match stdout p with
  | [] => ("", p)
  | line :: rest =>
      (line, {| stdout := rest; exits_on_terminate := exits_on_terminate p |})
  end.

(** Run a task from where it is to its next suspension. *)
Definition resume (t : task) (self : LinkedInMCPClient)
    : task * LinkedInMCPClient :=
  match t with
  | Created method params =>
      match process self with
      | None =>
          (Finished (Raise (Exn LinkedInMCPConnectionError
              (MLit "Server process not started. Call connect() first."))),
           self)
      | Some _ =>
          let '(id, self) := _get_next_id self in
          match id with
          | Ok id =>
              match stdin_write (make_request id method params) self with
              | (Ok _, self) => (AwaitingLine, self)
              | (Raise e, self) => (Finished (Raise e), self)
              end
          | Raise e => (Finished (Raise e), self)
          end
      end
  | AwaitingLine =>
      match process self with
      | None =>
          (Finished (Raise (Exn AttributeError
              (MLit "'NoneType' object has no attribute 'stdout'"))), self)
      | Some p =>
          let '(line, p) := readline p in
          let '(r, evs) := read_one line in
          let self := log evs (set_process (Some p) self) in
          match r with
          | None => (AwaitingLine, self)
          | Some (Raise e) => (Finished (Raise e), self)
          | Some (Ok response) => (Finished (response_outcome response), self)
          end
      end
  | Finished r => (Finished r, self)
  end.

(** The event loop resumes the tasks in the order the schedule gives. *)
Fixpoint run (schedule : list nat) (tasks : list task)
    (self : LinkedInMCPClient) : list task * LinkedInMCPClient :=
  match schedule with
  | [] => (tasks, self)
  | i :: schedule' =>
      match tasks !! i with
      | Some t =>
          let '(t', self') := resume t self in
          run schedule' (<[i := t']> tasks) self'
      | None => run schedule' tasks self
      end
  end.

(** One task run on its own until it has finished: with no other task to
    switch to, the event loop resumes it again and again. *)
Fixpoint drive (fuel : nat) (t : task) (self : LinkedInMCPClient)
    : task * LinkedInMCPClient :=
  match fuel with
  | O => (t, self)
  | S fuel' =>
      let '(t', self') := resume t self in
      match t' with
      | Finished _ => (t', self')
      | _ => drive fuel' t' self'
      end
  end.

(** Requests written whose call has not finished. *)
Definition awaiting (t : task) : bool :=
  match t with AwaitingLine => true | _ => false end.

Definition in_flight (tasks : list task) : nat :=
  length (List.filter awaiting tasks).

End Scheduler.
End Tasks.

(** * The browser singleton ([linkedin_mcp_server/drivers/browser.py]) *)

Module Browser.

(** Calls into Playwright, the scraping library and the file system, in
    order. *)
Inductive event :=
| Start (headless : bool)            (* BrowserManager(...) and start() *)
| PathExists (path : string)
| LoadSession (path : string)
| Route                              (* page.route("**/*", _block_heavy_resources) *)
| SetDefaultTimeout (ms : Z)
| Goto (url : string)
| IsLoggedIn
| GetCookie
| LoginWithCookie (cookie : string)
| DetectRateLimit
| Close.

(** The world outside the module; every answer may depend on what has
    happened so far.  [get_linkedin_cookie] and [get_config] are functions
    of the server package whose source is not part of the files at hand;
    they come in here as [linkedin_cookie] and [config_default_timeout]. *)
Class Site := {
  (** whether this call raises, after this history *)
  fails : list event -> event -> bool;
  (** [session_path.exists()]: the answer, or the exception it raises
      ([PermissionError] for a directory that may not be searched) *)
  path_exists : list event -> string -> result bool;
  (** [is_logged_in(page)] *)
  logged_in : list event -> bool;
  (** [get_linkedin_cookie()]: the cookie, [None], or the exception it
      raises *)
  linkedin_cookie : list event -> result (option string);
  (** [detect_rate_limit(page)] raises [RateLimitError] *)
  rate_limited : list event -> bool;
  config_default_timeout : Z;
  home : string
}.

Record BrowserManager := {
  headless : bool;
  default_timeout : option Z;    (* page.set_default_timeout *)
  blocking : bool                (* the resource-blocking route is installed *)
}.

(** The module's globals. *)
Record Globals := {
  _browser : option BrowserManager;
  _headless : bool;
  trace : list event
}.

Definition initial : Globals :=
  {| _browser := None; _headless := true; trace := [] |}.

Definition BLOCKED_RESOURCES : list string :=
  ["image"; "media"; "font"; "stylesheet"; "other"; "ping"].

(** [_block_heavy_resources]: [true] when the request is aborted. *)
Definition _block_heavy_resources (resource_type : string) : bool :=
  existsb (String.eqb resource_type) BLOCKED_RESOURCES.

Section Operations.
Context `{Site}.

Definition DEFAULT_SESSION_PATH : string :=
  home +:+ "/.linkedin-mcp/session.json".

Definition log (ev : event) (g : Globals) : Globals :=
  {| _browser := _browser g; _headless := _headless g;
     trace := trace g ++ [ev] |}.

Definition set_browser (b : option BrowserManager) (g : Globals) : Globals :=
  {| _browser := b; _headless := _headless g; trace := trace g |}.

Definition set_headless_flag (h : bool) (g : Globals) : Globals :=
  {| _browser := _browser g; _headless := h; trace := trace g |}.

(** An outside call that returns nothing: it is logged, and raises when
    the site says so. *)
Definition call (ev : event) : M Globals unit := fun g =>
  if fails (trace g) ev
  then (Raise (Exn PlaywrightError (MLit "call failed")), log ev g)
  else (Ok tt, log ev g).

(** A change to the browser object [_browser] refers to. *)
Definition update_browser (f : BrowserManager -> BrowserManager)
    : M Globals unit :=
  modify (fun g => set_browser (f <$> _browser g) g).

Definition page_set_default_timeout (ms : Z) : M Globals unit :=
  call (SetDefaultTimeout ms);;
  update_browser (fun b => {| headless := headless b;
                              default_timeout := Some ms;
                              blocking := blocking b |}).

Definition page_route : M Globals unit :=
  call Route;;
  update_browser (fun b => {| headless := headless b;
                              default_timeout := default_timeout b;
                              blocking := true |}).

Definition is_logged_in : M Globals bool := fun g =>
  (Ok (logged_in (trace g)), log IsLoggedIn g).

Definition session_path_exists (path : string) : M Globals bool := fun g =>
  (path_exists (trace g) path, log (PathExists path) g).

Definition get_linkedin_cookie : M Globals (option string) := fun g =>
  (linkedin_cookie (trace g), log GetCookie g).

Definition _apply_browser_settings : M Globals unit :=
  page_set_default_timeout config_default_timeout.

(** The browser [_browser] refers to. *)
Definition the_browser : M Globals BrowserManager :=
  g ← get;
  match _browser g with
  | Some b => mret b
  | None => raise AttributeError (MLit "'NoneType' object has no attribute")
  end.

(** "Priority 1": [Some] browser when the function returns from inside
    the [try], [None] when control falls through to the cookie. *)
Definition try_session_file (session_path : string)
    : M Globals (option BrowserManager) :=
  try_except
    (call (LoadSession session_path);;
     page_route;;
     page_set_default_timeout 120000;;
     call (Goto "https://www.linkedin.com/feed/");;
     ok ← is_logged_in;
     if ok : bool then
       _apply_browser_settings;;
       b ← the_browser;
       mret (Some b)
     else mret None)
    PyException
    (fun _ => mret None).

(** "Priority 2" *)
Definition try_cookie (cookie : string) : M Globals (option BrowserManager) :=
  try_except
    (page_route;;
     page_set_default_timeout 120000;;
     call (LoginWithCookie cookie);;
     _apply_browser_settings;;
     b ← the_browser;
     mret (Some b))
    PyException
    (fun _ => mret None).

Definition get_or_create_browser (headless : option bool)
    (session_path : option string) : M Globals BrowserManager :=
  match headless with
  | Some h => modify (set_headless_flag h)
  | None => mret tt
  end;;
  let session_path := default DEFAULT_SESSION_PATH session_path in
  g ← get;
  match _browser g with
  | Some b => mret b
  | None =>
      modify (set_browser (Some {| headless := _headless g;
                                   default_timeout := None;
                                   blocking := false |}));;
      call (Start (_headless g));;
      exists_ ← session_path_exists session_path;
      from_file ← (if exists_ : bool then try_session_file session_path
                   else mret None);
      match from_file with
      | Some b => mret b
      | None =>
          cookie ← get_linkedin_cookie;
          from_cookie ←
            match cookie with
            | Some c =>
                if str_empty c then mret None else try_cookie c
            | None => mret None
            end;
          match from_cookie with
          | Some b => mret b
          | None =>
              raise AuthenticationError
                (MLit "No authentication found. Run with --get-session to create a session.")
          end
      end
  end.

Definition close_browser : M Globals unit :=
  g ← get;
  match _browser g with
  | Some _ =>
      call Close;;
      modify (set_browser None)
  | None => mret tt
  end.

Definition session_exists (session_path : option string) : M Globals bool :=
  session_path_exists (default DEFAULT_SESSION_PATH session_path).

Definition set_headless (h : bool) : M Globals unit :=
  modify (set_headless_flag h).

Definition validate_session : M Globals bool :=
  get_or_create_browser None None;;
  is_logged_in.

Definition ensure_authenticated : M Globals unit :=
  ok ← validate_session;
  if negb ok
  then raise AuthenticationError (MLit "Session expired or invalid.")
  else mret tt.

Definition check_rate_limit : M Globals unit :=
  get_or_create_browser None None;;
  g ← get;
  if rate_limited (trace g)
  then modify (log DetectRateLimit);;
       raise RateLimitError (MLit "rate limited")
  else modify (log DetectRateLimit).

Definition reset_browser_for_testing : M Globals unit :=
  modify (fun g => {| _browser := None; _headless := true; trace := trace g |}).


End Operations.
End Browser.

(** * The job tools of the server ([linkedin_mcp_server/tools/job.py]) *)

Module JobTools.
Import Browser.

(** What a tool does with the page, besides the calls of the browser
    module. *)
Inductive visit :=
| Scrape (url : string)
| Search (keywords location limit : json)
| PageTitle
| PageContent.

(** The scraping library, and the error handler of the server package
    ([linkedin_mcp_server.error_handler], not among the files at hand).
    The answers of the library may depend on what the browser and the
    scrapers have done so far. *)
Class Scraper := {
  (** [JobScraper.scrape(url)] followed by [to_dict()] *)
  scrape : list event -> list visit -> string -> result (gmap string json);
  (** [JobSearchScraper.search(keywords, location, limit, offset)] *)
  search : list event -> list visit -> json -> json -> json
           -> result (list json);
  (** [page.title()] and [page.content()] *)
  page_title : list event -> list visit -> result string;
  page_content : list event -> list visit -> result string;
  (** [handle_tool_error(e, tool_name)] *)
  handle_tool_error : exn -> string -> json
}.

Record ToolState := {
  globals : Globals;        (* the globals of the browser module *)
  visits : list visit       (* ghost: the scraper calls so far *)
}.

Section Tools.
Context `{Site} `{Scraper}.

(** A computation of the browser module, run from a tool. *)
Definition in_browser {A} (m : M Globals A) : M ToolState A := fun st =>
  let '(r, g) := m (globals st) in
  (r, {| globals := g; visits := visits st |}).

(** A call of the scraping library. *)
Definition visiting {A}
    (answer : list event -> list visit -> result A) (v : visit)
    : M ToolState A := fun st =>
  (answer (trace (globals st)) (visits st),
   {| globals := globals st; visits := visits st ++ [v] |}).

(** The key normalization of [get_job_details]:
    [if "title" not in data and "job_title" in data:
       data["title"] = data["job_title"]]. *)
Definition normalize_title (data : gmap string json) : gmap string json :=
  if negb (bool_decide (is_Some (data !! "title")))
     && bool_decide (is_Some (data !! "job_title"))
  then <["title" := default JNull (data !! "job_title")]> data
  else data.

Definition get_job_details (job_id : string) : M ToolState json :=
  try_except
    (in_browser ensure_authenticated;;
     let job_url := "https://www.linkedin.com/jobs/view/" +:+ job_id +:+ "/" in
     in_browser (get_or_create_browser None None);;
     data ← visiting (fun h vs => scrape h vs job_url) (Scrape job_url);
     mret (JDict (normalize_title data)))
    PyException
    (fun e => mret (handle_tool_error e "get_job_details")).

(** [CustomJobSearchScraper.search]: the library's search, and on an empty
    result a look at the page for the log. *)
Definition CustomJobSearchScraper_search (keywords location limit : json)
    : M ToolState (list json) :=
  results ← visiting (fun h vs => search h vs keywords location limit)
                     (Search keywords location limit);
  match results with
  | [] =>
      visiting page_title PageTitle;;
      visiting page_content PageContent;;
      mret results
  | _ => mret results
  end.

Definition search_jobs (keywords location limit : json) : M ToolState json :=
  try_except
    (in_browser ensure_authenticated;;
     in_browser (get_or_create_browser None None);;
     job_urls ← CustomJobSearchScraper_search keywords location limit;
     mret (JDict {[ "job_urls" := JList job_urls;
                    "count" := JInt (Z.of_nat (length job_urls)) ]}))
    PyException
    (fun e => mret (handle_tool_error e "search_jobs")).

End Tools.
End JobTools.

(** * URL handling of the backend ([backend/linkedin_utils.py]) *)

Module Utils.

(** The text before and the text after the first occurrence of [sep], for a
    separator that is not empty. *)
Fixpoint find_from (sep s : string) : option (string * string) :=
  if String.prefix sep s
  then Some ("", String.substring (String.length sep)
                                  (String.length s - String.length sep) s)
  else
    match s with
    | EmptyString => None
    | String c s' =>
        match find_from sep s' with
        | Some (before, after) => Some (String c before, after)
        | None => None
        end
    end.

Fixpoint split_upto (fuel : nat) (sep s : string) : list string :=
  match fuel with
  | O => [s]
  | S fuel' =>
      match find_from sep s with
      | Some (before, after) => before :: split_upto fuel' sep after
      | None => [s]
      end
  end.

(** [s.split(sep)] for a separator that is not empty; a string of [n]
    characters has at most [n] occurrences of it. *)
Definition py_split (sep s : string) : list string :=
  split_upto (String.length s) sep s.

(** [url.split(marker)[1].split("/")[0]]; [None] stands for [IndexError]. *)
Definition segment_after (marker url : string) : option string :=
  match py_split marker url !! 1%nat with
  | Some rest => py_split "/" rest !! 0%nat
  | None => None
  end.

(** The first statement of [get_company_profile] and of
    [get_company_posts]: the company name taken from the URL. *)
Definition company_name_of (url : string) : option string :=
  if str_contains "linkedin.com/company/" url
  then segment_after "linkedin.com/company/" url
  else Some url.

(** The first statement of [get_person_profile]. *)
Definition username_of (url : string) : option string :=
  if str_contains "linkedin.com/in/" url
  then segment_after "linkedin.com/in/" url
  else Some url.

End Utils.

(** * The command line ([cli.py]) *)

Module Cli.
Import Client.

(** What the program prints. *)
Inductive printed :=
| Json (data : json)                    (* print_json(data) *)
| Error (prefix : string) (e : exn)     (* print(f"<prefix>{e}", file=sys.stderr) *)
| ServerHint                            (* "Make sure the LinkedIn MCP server is running: ..." *)
| SessionHint.                          (* "You may need to create a session: ..." *)

(** How a piece of the program ends: it returns, it raises, or it leaves
    through [sys.exit], which no handler of the program catches. *)
Inductive ending (A : Type) :=
| Returns (a : A)
| Raises (e : exn)
| Exits (status : Z).
Arguments Returns {A} a.
Arguments Raises {A} e.
Arguments Exits {A} status.

Record State := {
  client : LinkedInMCPClient;
  screen : list printed
}.

Definition Prog (A : Type) : Type := State -> ending A * State.

Definition then_ {A B} (m : Prog A) (k : A -> Prog B) : Prog B := fun st =>
  match m st with
  | (Returns a, st') => k a st'
  | (Raises e, st') => (Raises e, st')
  | (Exits status, st') => (Exits status, st')
  end.

Definition print (p : printed) : Prog unit := fun st =>
  (Returns tt, {| client := client st; screen := screen st ++ [p] |}).

Definition sys_exit {A} (status : Z) : Prog A := fun st => (Exits status, st).

(** A method of the client, called by the program. *)
Definition on_client {A} (m : M LinkedInMCPClient A) : Prog A := fun st =>
  match m (client st) with
  | (Ok a, self) => (Returns a, {| client := self; screen := screen st |})
  | (Raise e, self) => (Raises e, {| client := self; screen := screen st |})
  end.

(** [try: body / except cls1 as e: ... / except cls2 as e: ...]: the first
    clause whose class the exception belongs to handles it; what a handler
    raises is not offered to the clauses after it. *)
Fixpoint first_clause {A} (e : exn)
    (clauses : list (exn_class * (exn -> Prog A))) : option (exn -> Prog A) :=
  match clauses with
  | [] => None
  | (cls, handler) :: clauses' =>
      if issubclass (exn_cls e) cls then Some handler
      else first_clause e clauses'
  end.

Definition try_ {A} (body : Prog A)
    (clauses : list (exn_class * (exn -> Prog A))) : Prog A := fun st =>
  match body st with
  | (Raises e, st') =>
      match first_clause e clauses with
      | Some handler => handler e st'
      | None => (Raises e, st')
      end
  | r => r
  end.

Section Commands.
Context `{Runtime}.

(** The six commands that call one method of the client and print what it
    returns; in the source each is written out. *)
Definition cmd (call : M LinkedInMCPClient json) : Prog unit :=
  try_
    (then_ (on_client call) (fun result => print (Json result)))
    [(LinkedInMCPError,
      fun e => then_ (print (Error "Error: " e)) (fun _ => sys_exit 1))].

Definition cmd_get_person_profile (url : json) : Prog unit :=
  cmd (get_person_profile url).

Definition cmd_get_company_profile (url : json) : Prog unit :=
  cmd (get_company_profile url).

Definition cmd_get_company_posts (url limit : json) : Prog unit :=
  cmd (get_company_posts url limit).

Definition cmd_search_jobs (keywords location limit time_posted : json)
    : Prog unit :=
  cmd (search_jobs keywords location limit time_posted).

Definition cmd_get_job_details (url : json) : Prog unit :=
  cmd (get_job_details url).

Definition cmd_close_session : Prog unit := cmd close_session.

(** [run()] inside [main()], for the command that [args.command]
    selects. *)
Definition run (command : Prog unit) : Prog unit :=
  try_
    (then_ (on_client connect) (fun _ =>
     then_ command (fun _ =>
     on_client disconnect)))
    [(LinkedInMCPConnectionError,
      fun e => then_ (print (Error "Connection error: " e)) (fun _ =>
               then_ (print ServerHint) (fun _ => sys_exit 1)));
     (LinkedInMCPAuthenticationError,
      fun e => then_ (print (Error "Authentication error: " e)) (fun _ =>
               then_ (print SessionHint) (fun _ => sys_exit 1)));
     (LinkedInMCPError,
      fun e => then_ (print (Error "Error: " e)) (fun _ => sys_exit 1))].

End Commands.
End Cli.

(** * The search workflow of the backend
      ([backend/linkedin_utils.py], [backend/main.py]) *)

Module Backend.

(** A content block of a tool result: a text block, or a block of another
    type (which has no [text]). *)
Inductive content :=
| TextContent (text : string)
| OtherContent (type : string).

(** What [json.loads] does with a text: a value, a [JSONDecodeError] whose
    message has "Extra data" in it, or another [JSONDecodeError]. *)
Inductive loads_outcome :=
| Loaded (v : json)
| ExtraData
| Invalid.

(** The libraries the workflow runs on.  The server's answers depend on the
    request only. *)
Class Session := {
  (** [session.call_tool(name, arguments)]: the content of the result *)
  call_tool : string -> json -> result (list content);
  (** [json.loads(text)] *)
  loads : string -> loads_outcome;
  (** [JSONDecoder().raw_decode(text)]: the first value in the text;
      [None] for an exception *)
  raw_decode : string -> option json;
  (** [re.search(r'view/(\d+)', url)] and [group(1)]: [None] without a
      match; an exception when [url] is not a string *)
  search_view_id : json -> result (option string);
  (** the keys of a dict, in the order the dict yields them *)
  keys_of : gmap string json -> list string;
  (** [str(e)] *)
  str_of : exn -> string;
  (** entering [stdio_client], [ClientSession] and [session.initialize()]:
      [Some e] when it raises *)
  session_fails : option exn
}.

(** The characters of a [str], kept in UTF-8: a character ends where the
    next byte is not a continuation byte. *)
Fixpoint utf8_chars (s : string) : list string :=
  match s with
  | EmptyString => []
  | String a s' =>
      let cs := utf8_chars s' in
      match s' with
      | String b _ =>
          if cont b then
            match cs with
            | c :: cs' => String a c :: cs'
            | [] => [String a ""]
            end
          else String a "" :: cs
      | EmptyString => String a "" :: cs
      end
  end.

(** [l[:stop]] *)
Definition slice_to {A} (l : list A) (stop : Z) : list A :=
  if 0 <=? stop then take (Z.to_nat stop) l
  else take (length l - Z.to_nat (- stop)) l.

Definition is_str (v : json) : bool :=
  match v with JStr _ => true | _ => false end.

Section Workflow.
Context `{Session}.

(** What [list.extend(v)] appends. *)
Definition py_iter (v : json) : result (list json) :=
  match v with
  | JList l => Ok l
  | JStr s => Ok (map JStr (utf8_chars s))
  | JDict d => Ok (map JStr (keys_of d))
  | _ => Raise (Exn TypeError (MLit "object is not iterable"))
  end.

(** [safe_parse_json], local to [search_jobs]; [JNull] is [None]. *)
Definition safe_parse_json (text : string) : json :=
  match loads text with
  | Loaded v => v
  | ExtraData =>
      match raw_decode text with
      | Some obj => obj
      | None => JNull
      end
  | Invalid => JNull
  end.

(** The body of the loop over [result.content]: [job_urls] and
    [debug_info] after one more block. *)
Definition collect (acc : list json * json) (block : content)
    : result (list json * json) :=
  let '(job_urls, debug_info) := acc in
  match block with
  | TextContent text =>
      let data := safe_parse_json text in
      if py_truthy data then
        match data with
        | JDict d =>
            match py_iter (default (JList []) (d !! "job_urls")) with
            | Ok urls =>
                Ok (job_urls ++ urls,
                    match d !! "debug_info" with
                    | Some info => info
                    | None => debug_info
                    end)
            | Raise e => Raise e
            end
        | JList l => Ok (job_urls ++ List.filter is_str l, debug_info)
        | _ => Ok acc
        end
      else Ok acc
  | OtherContent _ => Ok acc
  end.

Fixpoint collect_all (acc : list json * json) (blocks : list content)
    : result (list json * json) :=
  match blocks with
  | [] => Ok acc
  | block :: blocks' =>
      match collect acc block with
      | Ok acc' => collect_all acc' blocks'
      | Raise e => Raise e
      end
  end.

(** [get_details], local to [search_jobs]; it catches every exception and
    returns [None] then. *)
Definition get_details (url : json) : option (gmap string json) :=
  match search_view_id url with
  | Ok (Some job_id) =>
      if str_empty job_id then None
      else
        match call_tool "get_job_details"
                        (JDict {[ "job_id" := JStr job_id ]}) with
        | Ok (TextContent text :: _) =>
            match safe_parse_json text with
            | JDict details =>
                Some (if bool_decide (is_Some (details !! "url"))
                      then details
                      else <["url" := url]> details)
            | _ => None
            end
        | _ => None
        end
  | _ => None
  end.

(** [search_jobs(session, keyword, limit, location, time_posted)]: the
    jobs and the debug information. *)
Definition search_jobs (keyword : json) (limit : Z) (location : json)
    (time_posted : json) : list json * json :=
  let arguments := JDict {[ "keywords" := keyword;
                            "location" := location;
                            "limit" := JInt limit ]} in
  let body : result (list json * json) :=
    match call_tool "search_jobs" arguments with
    | Raise e => Raise e
    | Ok blocks =>
        match collect_all ([], JDict ∅) blocks with
        | Raise e => Raise e
        | Ok (job_urls, debug_info) =>
            match job_urls with
            | [] => Ok ([], debug_info)
            | _ =>
                let jobs := map get_details (slice_to job_urls limit) in
                let valid_jobs := omap (fmap JDict) jobs in
                Ok (valid_jobs, debug_info)
            end
        end
    end in
  match body with
  | Ok r => r
  | Raise e => ([], JDict {[ "error" := JStr (str_of e) ]})
  end.

(** What an endpoint gives: a response body, or [HTTPException]. *)
Inductive endpoint_result :=
| Respond (body : json)
| HTTPException (status_code : Z) (detail : string).

(** The loop of [search_endpoint] over the keywords: [all_job_urls]
    afterwards.  [urls] is the pair [search_jobs] returns; a pair is never
    falsy, and [extend] appends its two components. *)
Fixpoint search_all (keywords : list json) (limit : Z) (location : json)
    (time_posted : json) (all_job_urls : list json) : list json :=
  match keywords with
  | [] => all_job_urls
  | keyword :: keywords' =>
      let '(jobs, debug_info) :=
        search_jobs keyword limit location time_posted in
      search_all keywords' limit location time_posted
                 (all_job_urls ++ [JList jobs; debug_info])
  end.

(** [POST /search] *)
Definition search_endpoint (keywords : list json) (location : json)
    (limit : Z) (time_posted : json) : endpoint_result :=
  match session_fails with
  | Some e => HTTPException 500 (str_of e)
  | None =>
      let all_job_urls := search_all keywords limit location time_posted [] in
      Respond (JDict {[ "status" := JStr "success";
                        "count" := JInt (Z.of_nat (length all_job_urls));
                        "jobs" := JList all_job_urls ]})
  end.

(** ** The profile endpoints *)

(** The tail of [get_company_profile], [get_company_posts] and
    [get_person_profile], which each function writes out: the text of the
    first content block, parsed as [safe_parse_json] does; [None] when
    there is no block, when the first block has no text, and when the call
    raised.  (Two of the functions also write the text to a debug file and
    go on whatever that does.) *)
Definition first_text_parsed (r : result (list content)) : json :=
  match r with
  | Ok (TextContent text :: _) => safe_parse_json text
  | _ => JNull
  end.

(** The name is taken from the URL before the [try]: an [IndexError] there
    would leave the function.  The model has no class of its own for it;
    it is an [Exception]. *)
Definition IndexError : exn :=
  Exn PyException (MLit "list index out of range").

Definition get_company_profile (url : string) : result json :=
  match Utils.company_name_of url with
  | None => Raise IndexError
  | Some company_name =>
      Ok (first_text_parsed
            (call_tool "get_company_profile"
               (JDict {[ "company_name" := JStr company_name ]})))
  end.

Definition get_company_posts (url : string) (limit : Z) : result json :=
  match Utils.company_name_of url with
  | None => Raise IndexError
  | Some company_name =>
      Ok (first_text_parsed
            (call_tool "get_company_posts"
               (JDict {[ "company_name" := JStr company_name;
                         "limit" := JInt limit ]})))
  end.

Definition get_person_profile (url : string) : result json :=
  match Utils.username_of url with
  | None => Raise IndexError
  | Some username =>
      Ok (first_text_parsed
            (call_tool "get_person_profile"
               (JDict {[ "linkedin_username" := JStr username ]})))
  end.

(** What the three endpoints make of [data]; the same lines in each, with
    its own message.  In [data.get("message", data["error"])] the attribute
    [get] is looked up before the argument is evaluated. *)
Definition respond (data : json) (not_found : string) : result json :=
  if py_truthy data then
    match py_in "error" data with
    | Raise e => Raise e
    | Ok true =>
        match data with
        | JDict _ =>
            match py_getitem data "error" with
            | Raise e => Raise e
            | Ok error =>
                match py_get data "message" error with
                | Raise e => Raise e
                | Ok message =>
                    Ok (JDict {[ "success" := JBool false;
                                 "error" := message ]})
                end
            end
        | _ => Raise (Exn AttributeError
                          (MLit "object has no attribute 'get'"))
        end
    | Ok false => Ok (JDict {[ "success" := JBool true; "data" := data ]})
    end
  else Ok (JDict {[ "success" := JBool false; "error" := JStr not_found ]}).

Definition profile_endpoint (fetched : result json) (not_found : string)
    : endpoint_result :=
  match session_fails with
  | Some e => HTTPException 500 (str_of e)
  | None =>
      match fetched with
      | Raise e => HTTPException 500 (str_of e)
      | Ok data =>
          match respond data not_found with
          | Ok body => Respond body
          | Raise e => HTTPException 500 (str_of e)
          end
      end
  end.

(** [POST /api/company-profile] *)
Definition company_profile_endpoint (url : string) : endpoint_result :=
  profile_endpoint (get_company_profile url)
                   "Company not found or no data returned".

(** [POST /api/company-posts] *)
Definition company_posts_endpoint (url : string) (limit : Z)
    : endpoint_result :=
  profile_endpoint (get_company_posts url limit) "No posts found".

(** [POST /api/person-profile] *)
Definition person_profile_endpoint (url : string) : endpoint_result :=
  profile_endpoint (get_person_profile url) "Profile not found".

End Workflow.
End Backend.

(** * Stub collaborators

    Closed instances of the outside world, used to run the definitions on
    concrete inputs. *)

Module Stub.
Import Client.

(** A JSON library that knows the listed texts and raises
    [JSONDecodeError] on every other one. *)
Definition table_loads (table : list (string * json)) (text : string)
    : parse :=
  match List.find (fun entry => String.eqb (fst entry) text) table with
  | Some entry => Parsed (snd entry)
  | None => NotJSON
  end.

Definition nl : string := chr 10.
Definition quoted (s : string) : string := chr 34 +:+ s +:+ chr 34.

(** The text of a JSON object from its members, in order. *)
Fixpoint members (fields : list (string * string)) : string :=
  match fields with
  | [] => ""
  | [(k, v)] => quoted k +:+ ": " +:+ v
  | (k, v) :: fields' => quoted k +:+ ": " +:+ v +:+ ", " +:+ members fields'
  end.

Definition obj (fields : list (string * string)) : string :=
  "{" +:+ members fields +:+ "}".

(** Lines a server may print, and what [json.loads] makes of them. *)
Definition debug_text : string := "debug: starting up".

Definition init_ok_text : string :=
  obj [("jsonrpc", quoted "2.0"); ("id", "1"); ("result", obj [])].
Definition init_ok : json :=
  JDict {[ "jsonrpc" := JStr "2.0"; "id" := JInt 1; "result" := JDict ∅ ]}.

Definition result_1_text : string :=
  obj [("jsonrpc", quoted "2.0"); ("id", "1");
       ("result", obj [("tools", "[]")])].
Definition result_1 : json :=
  JDict {[ "jsonrpc" := JStr "2.0"; "id" := JInt 1;
           "result" := JDict {[ "tools" := JList [] ]} ]}.

Definition result_99_text : string :=
  obj [("jsonrpc", quoted "2.0"); ("id", "99");
       ("result", obj [("x", "1")])].
Definition result_99 : json :=
  JDict {[ "jsonrpc" := JStr "2.0"; "id" := JInt 99;
           "result" := JDict {[ "x" := JInt 1 ]} ]}.

Definition auth_error_text : string :=
  obj [("jsonrpc", quoted "2.0"); ("id", "1");
       ("error", obj [("code", "-32000"); ("message", quoted "login required")])].
Definition auth_error : json :=
  JDict {[ "jsonrpc" := JStr "2.0"; "id" := JInt 1;
           "error" := JDict {[ "code" := JInt (-32000);
                               "message" := JStr "login required" ]} ]}.

Definition result_2_text : string :=
  obj [("jsonrpc", quoted "2.0"); ("id", "2");
       ("result", obj [("x", "2")])].
Definition result_2 : json :=
  JDict {[ "jsonrpc" := JStr "2.0"; "id" := JInt 2;
           "result" := JDict {[ "x" := JInt 2 ]} ]}.

(** A response that carries both members, with a null error. *)
Definition null_error_text : string :=
  obj [("jsonrpc", quoted "2.0"); ("id", "1"); ("error", "null");
       ("result", obj [("tools", "[]")])].
Definition null_error : json :=
  JDict {[ "jsonrpc" := JStr "2.0"; "id" := JInt 1; "error" := JNull;
           "result" := JDict {[ "tools" := JList [] ]} ]}.

Definition table : list (string * json) :=
  [(init_ok_text, init_ok); (result_1_text, result_1);
   (result_2_text, result_2); (result_99_text, result_99);
   (auth_error_text, auth_error); (null_error_text, null_error)].

(** A runtime whose child prints the given texts, one per line, and then
    closes its output, but goes on reading its input; its HTTP endpoint
    always answers [answer]. *)
Definition runtime (texts : list string) (answer : http_outcome) : Runtime :=
  {| json_parse := table_loads table;
     spawn := fun _ => Some {| stdout := map (fun t => t +:+ nl) texts;
                               exits_on_terminate := true |};
     stdin_broken := fun _ => false;
     http_post := fun _ _ => answer |}.

Definition refused : http_outcome := NetworkFailure "connection refused".

(** Servers: each answers the handshake, then ... *)
(** ... reports an authentication error; *)
Definition auth_server : Runtime := runtime [init_ok_text; auth_error_text] refused.
(** ... prints a diagnostic line and then the answer to request 1; *)
Definition noisy_server : Runtime :=
  runtime [init_ok_text; debug_text; result_1_text] refused.
(** ... sends a response whose id is 99; *)
Definition stray_server : Runtime := runtime [init_ok_text; result_99_text] refused.
(** ... answers request 1 and then request 2, in this order; *)
Definition ordered_server : Runtime :=
  runtime [init_ok_text; result_1_text; result_2_text] refused.
(** ... closes its output. *)
Definition silent_server : Runtime := runtime [init_ok_text; debug_text] refused.

Definition stdio_client : LinkedInMCPClient := __init__ "stdio" None None 30.
Definition http_client : LinkedInMCPClient := __init__ "http" None None 30.

(** The client after [connect()]. *)
Definition connected (R : Runtime) : LinkedInMCPClient :=
  snd (connect (H := R) stdio_client).

End Stub.

Module StubSite.
Import Browser.

(** A site where no call fails: [file] says whether the session file is
    there, [cookie] is what [get_linkedin_cookie] returns and [logged] what
    the login check answers. *)
Definition site (file : bool) (cookie : option string) (logged : bool) : Site :=
  {| fails := fun _ _ => false;
     path_exists := fun _ _ => Ok file;
     logged_in := fun _ => logged;
     linkedin_cookie := fun _ => Ok cookie;
     rate_limited := fun _ => false;
     config_default_timeout := 30000;
     home := "/home/user" |}.

Definition cookie_only : Site := site false (Some "li_at=AQEDAT") true.
Definition session_file : Site := site true None true.
Definition no_credentials : Site := site false None false.

End StubSite.

(** * Further stub collaborators *)

Module StubWorld.
Import Client.

(** A child that closes its output without a word. *)
Definition closing_server : Runtime := Stub.runtime [] Stub.refused.

(** An endpoint behind a proxy that answers 200 with an HTML page. *)
Definition html_page : string := "<html>Bad Gateway</html>".
Definition html_endpoint : Runtime :=
  Stub.runtime [] (HttpResponse 200 html_page).

(** A client made with a transport the class does not know. *)
Definition websocket_client : LinkedInMCPClient :=
  __init__ "websocket" None None 30.

(** A line that is not UTF-8: the single byte 0xFF. *)
Definition latin1_line : string := chr 255 +:+ Stub.nl.

(** Servers that answer the handshake and then ...
    ... print that line and the answer to request 1; *)
Definition latin1_server : Runtime :=
  Stub.runtime [Stub.init_ok_text; chr 255; Stub.result_1_text] Stub.refused.
(** ... answer with a null error next to the result; *)
Definition null_error_server : Runtime :=
  Stub.runtime [Stub.init_ok_text; Stub.null_error_text] Stub.refused.

(** An endpoint that answers 200 with the null-error response. *)
Definition null_error_endpoint : Runtime :=
  Stub.runtime [] (HttpResponse 200 Stub.null_error_text).

(** An integer of 4301 digits, and a JSON library that refuses to convert
    it; the server prints it before the answer to request 1. *)
Definition digits : string := String.concat "" (repeat "9"%string 4301).
Definition digits_server : Runtime :=
  {| json_parse := fun text =>
       if String.eqb text digits then DigitLimit
       else Stub.table_loads Stub.table text;
     spawn := fun _ =>
       Some {| stdout := map (fun t => t +:+ Stub.nl)
                             [Stub.init_ok_text; digits; Stub.result_1_text];
               exits_on_terminate := true |};
     stdin_broken := fun _ => false;
     http_post := fun _ _ => Stub.refused |}.

End StubWorld.

Module StubSiteGone.
Import Browser.

(** A site whose session file is there when the browser is first created
    and has been removed afterwards; there is no cookie, and the page,
    once logged in, stays logged in. *)
Definition site : Site :=
  {| fails := fun _ _ => false;
     path_exists := fun h _ => Ok (length h <=? 1)%nat;
     logged_in := fun _ => true;
     linkedin_cookie := fun _ => Ok None;
     rate_limited := fun _ => false;
     config_default_timeout := 30000;
     home := "/home/user" |}.

End StubSiteGone.

Module StubSiteLocked.
Import Browser.

(** A site where the directory of the session file may not be searched:
    [exists()] raises [PermissionError]. *)
Definition denied : exn :=
  Exn PermissionError (MLit "[Errno 13] Permission denied").

Definition site : Site :=
  {| fails := fun _ _ => false;
     path_exists := fun _ _ => Raise denied;
     logged_in := fun _ => false;
     linkedin_cookie := fun _ => Ok (Some "li_at=AQEDAT");
     rate_limited := fun _ => false;
     config_default_timeout := 30000;
     home := "/home/user" |}.

End StubSiteLocked.

Module StubSiteExpired.
Import Browser.

Definition cookie : string := "li_at=AQEDAT".

Definition is_login (ev : event) : bool :=
  match ev with
  | LoginWithCookie c => String.eqb c cookie
  | _ => false
  end.

(** A site whose session file is there and loads, but is expired: the page
    is logged in only once the cookie has been applied. *)
Definition site : Site :=
  {| fails := fun _ _ => false;
     path_exists := fun _ _ => Ok true;
     logged_in := existsb is_login;
     linkedin_cookie := fun _ => Ok (Some cookie);
     rate_limited := fun _ => false;
     config_default_timeout := 30000;
     home := "/home/user" |}.

(** The module state after a successful [ensure_authenticated] on the site
    with a session file. *)
Definition authenticated : Globals :=
  snd (ensure_authenticated (H := StubSite.session_file) initial).

End StubSiteExpired.

Module StubBackend.
Import Backend.

Definition job_url : string := "https://www.linkedin.com/jobs/view/4252026496".

Definition urls_text : string :=
  Stub.obj [("job_urls", "[" +:+ Stub.quoted job_url +:+ "]"); ("count", "1")].
Definition urls : json :=
  JDict {[ "job_urls" := JList [JStr job_url]; "count" := JInt 1 ]}.

Definition details_text : string :=
  Stub.obj [("title", Stub.quoted "Engineer")].
Definition details : json := JDict {[ "title" := JStr "Engineer" ]}.

(** A server that finds one job for every search, with libraries that know
    the two texts it sends. *)
Definition session : Session :=
  {| call_tool := fun name _ =>
       if String.eqb name "search_jobs" then Ok [TextContent urls_text]
       else Ok [TextContent details_text];
     loads := fun text =>
       if String.eqb text urls_text then Loaded urls
       else if String.eqb text details_text then Loaded details
       else Invalid;
     raw_decode := fun _ => None;
     search_view_id := fun url =>
       match url with
       | JStr s => Ok (if String.eqb s job_url then Some "4252026496" else None)
       | _ => Raise (Exn TypeError (MLit "expected string or bytes-like object"))
       end;
     keys_of := fun d => (map_to_list d).*1;
     str_of := fun _ => "error";
     session_fails := None |}.

End StubBackend.

(** * Properties of the client *)

Section ClientProperties.
Import Client Tasks.
Context `{Runtime}.

Implicit Types (self : LinkedInMCPClient) (p : Popen) (d : gmap string json).

Ltac unfold_m :=
  unfold mbind, mret, M_bind, M_ret, get, modify, raise, lift, emit,
         stdin_write, try_except, try_except_all in *.

(** [_send_request_stdio] on a started client: the counter moves by one,
    the request with the new id is handed to the pipe, and when the pipe
    takes it the outcome is decided by the first message read. *)
Lemma send_request_stdio_unfold self p method params :
  process self = Some p ->
  _send_request_stdio method params self =
    let id := request_id self + 1 in
    let self1 := log [Write (make_request id method params)]
                     (set_request_id id self) in
    if stdin_broken (trace self) then (Raise broken_pipe, self1)
    else
      let '(r, rest, evs) := read_loop (stdout p) in
      (match r with
       | Ok response => response_outcome response
       | Raise e => Raise e
       end,
       log evs
         (set_process
            (Some {| stdout := rest;
                     exits_on_terminate := exits_on_terminate p |})
            self1)).
Proof.
  intros Hp. unfold _send_request_stdio. unfold_m. rewrite Hp.
  unfold _get_next_id, _read_next_json_message. simpl.
  destruct (stdin_broken (trace self)); simpl; [reflexivity|]. rewrite Hp.
  destruct (read_loop (stdout p)) as [[r rest] evs]. simpl.
  destruct r as [response|e]; [|reflexivity].
  unfold response_outcome.
  destruct (py_in "error" response) as [[|]|e]; try reflexivity.
  destruct (py_getitem response "error") as [error|e]; try reflexivity.
  destruct (py_get error "message" (JStr "Unknown error")) as [msg|e]; try reflexivity.
  destruct (py_get error "code" (JInt (-1))) as [code|e]; try reflexivity.
  destruct (py_eq_int code (-32000)); reflexivity.
Qed.


(** What the shared error check does with a JSON object. *)
Lemma response_outcome_dict d :
  response_outcome (JDict d) =
    match d !! "error" with
    | None => Ok (default (JDict ∅) (d !! "result"))
    | Some (JDict e) =>
        let error_msg := default (JStr "Unknown error") (e !! "message") in
        if py_eq_int (default (JInt (-1)) (e !! "code")) (-32000)
        then Raise (Exn LinkedInMCPAuthenticationError (MVal error_msg))
        else Raise (Exn LinkedInMCPToolError (MFmt "Server error: " error_msg))
    | Some _ =>
        Raise (Exn AttributeError (MLit "object has no attribute 'get'"))
    end.
Proof.
  unfold response_outcome. simpl.
  destruct (d !! "error") as [error|] eqn:He.
  - rewrite bool_decide_eq_true_2 by eauto. simpl.
    destruct error; reflexivity.
  - rewrite bool_decide_eq_false_2; [reflexivity|].
    intros [x Hx]. discriminate.
Qed.

(** The error check raises nothing but these. *)
Lemma response_outcome_raises response e :
  response_outcome response = Raise e ->
  In (exn_cls e) [TypeError; AttributeError;
                  LinkedInMCPAuthenticationError; LinkedInMCPToolError].
Proof.
  unfold response_outcome. intros Hr.
  repeat match type of Hr with
         | context [match ?x with _ => _ end] => destruct x eqn:?
         | context [if ?x then _ else _] => destruct x eqn:?
         end;
    simplify_eq;
    repeat match goal with
           | Hq : py_in _ _ = Raise _ |- _ =>
               unfold py_in in Hq; destruct response; simplify_eq
           | Hq : py_getitem ?v _ = Raise _ |- _ =>
               unfold py_getitem in Hq; destruct v; simplify_eq
           | Hq : py_get ?v _ _ = Raise _ |- _ =>
               unfold py_get in Hq; destruct v; simplify_eq
           end;
    simpl; tauto.
Qed.

(** In particular it raises none of httpx's exceptions, so the handler of
    [_send_request_http] never sees what it raises. *)
Lemma response_outcome_not_caught response e :
  response_outcome response = Raise e ->
  issubclass (exn_cls e) RequestError = false.
Proof.
  intros Hr. apply response_outcome_raises in Hr. simpl in Hr.
  destruct Hr as [<-|[<-|[<-|[<-|[]]]]]; reflexivity.
Qed.

(** What [json.loads] raises. *)
Lemma json_loads_raises text e :
  json_loads text = Raise e ->
  In (exn_cls e) [JSONDecodeError; ValueError; RecursionError].
Proof.
  unfold json_loads. destruct (json_parse text); intros [= <-]; simpl; tauto.
Qed.

Lemma json_loads_not_caught text e :
  json_loads text = Raise e -> issubclass (exn_cls e) RequestError = false.
Proof.
  intros Hr. apply json_loads_raises in Hr. simpl in Hr.
  destruct Hr as [<-|[<-|[<-|[]]]]; reflexivity.
Qed.

(** [_send_request_http], step by step. *)
Lemma send_request_http_unfold self method params :
  _send_request_http method params self =
    let id := request_id self + 1 in
    let request := make_request id method params in
    (match http_post (http_url self) request with
     | NetworkFailure detail =>
         Raise (Exn LinkedInMCPConnectionError
                    (MFmtExn "HTTP request failed: " RequestError (MLit detail)))
     | HttpResponse status_code body =>
         if (200 <=? status_code) && (status_code <=? 299) then
           match json_loads body with
           | Ok result => response_outcome result
           | Raise e => Raise e
           end
         else Raise (Exn HTTPStatusError (MVal (JInt status_code)))
     end,
     log [Post (http_url self) request] (set_request_id id self)).
Proof.
  unfold _send_request_http. unfold_m. unfold _get_next_id. simpl.
  destruct (http_post _ _) as [detail|status_code body]; simpl; [reflexivity|].
  unfold raise_for_status. unfold_m.
  destruct ((200 <=? status_code) && (status_code <=? 299)); simpl;
    [|reflexivity].
  unfold response_json. unfold_m.
  destruct (json_loads body) as [result|e] eqn:Hbody; simpl;
    [|rewrite (json_loads_not_caught _ _ Hbody); reflexivity].
  pose proof (response_outcome_not_caught result) as Hnc.
  unfold response_outcome in *.
  destruct (py_in "error" result) as [[|]|e]; simpl;
    try (rewrite (Hnc _ eq_refl)); try reflexivity.
  - destruct (py_getitem result "error") as [error|e]; simpl;
      try (rewrite (Hnc _ eq_refl)); try reflexivity.
    destruct (py_get error "message" (JStr "Unknown error")) as [msg|e]; simpl;
      try (rewrite (Hnc _ eq_refl)); try reflexivity.
    destruct (py_get error "code" (JInt (-1))) as [code|e]; simpl;
      try (rewrite (Hnc _ eq_refl)); try reflexivity.
    destruct (py_eq_int code (-32000)); reflexivity.
  - destruct (py_get result "result" (JDict ∅)) as [v|e]; simpl;
      try (rewrite (Hnc _ eq_refl)); reflexivity.
Qed.


(** C2 (as amended). Whatever the transport, a response object is an error
    response exactly when it has an ["error"] member.  When that member is
    an object with code -32000 the call raises the authentication error,
    when it is any other object the call raises the tool error, in both
    cases with the server's message; a response with an ["error"] member,
    whatever its value, is never returned as a result.  A response without
    an ["error"] member makes the call return the ["result"] member as it
    is (the empty dict when there is none). *)
Theorem error_code_mapping self method params d :
  ((exists p rest evs,
      transport self = "stdio" /\ process self = Some p /\
      stdin_broken (trace self) = false /\
      read_loop (stdout p) = (Ok (JDict d), rest, evs))
   \/
   (exists status_code body,
      transport self = "http" /\
      http_post (http_url self)
                (make_request (request_id self + 1) method params)
        = HttpResponse status_code body /\
      200 <= status_code <= 299 /\
      json_loads body = Ok (JDict d))) ->
  let r := fst (_send_request method params self) in
  (forall e, d !! "error" = Some (JDict e) ->
     e !! "code" = Some (JInt (-32000)) ->
     r = Raise (Exn LinkedInMCPAuthenticationError
                    (MVal (default (JStr "Unknown error") (e !! "message")))))
  /\
  (forall e, d !! "error" = Some (JDict e) ->
     e !! "code" <> Some (JInt (-32000)) ->
     r = Raise (Exn LinkedInMCPToolError
                    (MFmt "Server error: "
                          (default (JStr "Unknown error") (e !! "message")))))
  /\
  (d !! "error" = None ->
     r = Ok (default (JDict ∅) (d !! "result")))
  /\
  (is_Some (d !! "error") -> exists e, r = Raise e).
Proof.
  intros Hrecv r.
  assert (r = response_outcome (JDict d)) as ->.
  { unfold r, _send_request. unfold_m.
    destruct Hrecv as [(p & rest & evs & Ht & Hp & Hpipe & Hread)
                      |(status_code & body & Ht & Hpost & Hs & Hbody)];
      rewrite Ht; simpl.
    - rewrite (send_request_stdio_unfold _ _ _ _ Hp). simpl.
      rewrite Hpipe, Hread. reflexivity.
    - rewrite send_request_http_unfold. simpl. rewrite Hpost.
      replace ((200 <=? status_code) && (status_code <=? 299)) with true
        by (symmetry; apply andb_true_iff; split; apply Z.leb_le; lia).
      rewrite Hbody. reflexivity. }
  rewrite response_outcome_dict. split; [|split; [|split]].
  - intros e -> Hcode. simpl. rewrite Hcode. reflexivity.
  - intros e -> Hcode. simpl.
    destruct (e !! "code") as [[| |code| | |]|]; simpl; try reflexivity.
    destruct (Z.eqb_spec code (-32000)) as [->|Hne]; [congruence|reflexivity].
  - intros ->. reflexivity.
  - intros [v ->]. destruct v as [| | | | |e]; eauto.
    simpl. destruct (py_eq_int _ _); eauto.
Qed.

Lemma str_empty_false s : s <> "" -> str_empty s = false.
Proof. destruct s; [congruence|reflexivity]. Qed.

Lemma str_empty_true s : str_empty s = true -> s = "".
Proof. destruct s; [reflexivity|discriminate]. Qed.

(** A line the loop of [_read_next_json_message] passes over: it is not the
    end of the stream, it is text, and stripped it is blank or rejected by
    [json.loads]. *)
Lemma read_loop_skip line out :
  line <> "" -> utf8_valid line = true ->
  strip line = "" \/ not_json (strip line) = true ->
  (read_loop (line :: out)).1.1 = (read_loop out).1.1 /\
  (read_loop (line :: out)).1.2 = (read_loop out).1.2.
Proof.
  intros Hne Hutf Hnoise. simpl.
  rewrite (str_empty_false _ Hne). unfold decode. rewrite Hutf.
  destruct (str_empty (strip line)) eqn:Hblank.
  - destruct (read_loop out) as [[r rest] evs]. done.
  - destruct Hnoise as [Hs|Hj].
    + rewrite Hs in Hblank. discriminate.
    + unfold not_json in Hj.
      destruct (json_loads (strip line)) as [v|e]; [discriminate|].
      rewrite Hj. destruct (read_loop out) as [[r rest] evs]. done.
Qed.

Lemma read_loop_skip_all noise out :
  Forall (fun l => l <> "" /\ utf8_valid l = true /\
                   (strip l = "" \/ not_json (strip l) = true)) noise ->
  (read_loop (noise ++ out)).1.1 = (read_loop out).1.1 /\
  (read_loop (noise ++ out)).1.2 = (read_loop out).1.2.
Proof.
  induction 1 as [|l noise (Hne & Hutf & Hnoise) _ IH]; [done|].
  rewrite <- app_comm_cons.
  destruct (read_loop_skip l (noise ++ out) Hne Hutf Hnoise) as [-> ->].
  exact IH.
Qed.

(** A line the loop accepts. *)
Lemma read_loop_accept line out v :
  utf8_valid line = true -> strip line <> "" ->
  json_loads (strip line) = Ok v ->
  (read_loop (line :: out)).1.1 = Ok v /\ (read_loop (line :: out)).1.2 = out.
Proof.
  intros Hutf Hne Hj. simpl.
  assert (line <> "") as Hl by (intros ->; apply Hne; reflexivity).
  rewrite (str_empty_false _ Hl). unfold decode. rewrite Hutf.
  rewrite (str_empty_false _ Hne), Hj. done.
Qed.

(** The part of the reader's contract that holds.  Lines that are UTF-8
    text and not JSON (blank once stripped, or rejected by [json.loads] with
    [JSONDecodeError]) are passed over without an exception: after any
    number of them, a line that parses is what [_read_next_json_message]
    returns, the lines before it are consumed, and the call that was
    waiting gets the outcome of that response, not a parse error. *)
Lemma non_json_lines_discarded self p noise line rest v method params :
  process self = Some p ->
  stdin_broken (trace self) = false ->
  stdout p = noise ++ line :: rest ->
  Forall (fun l => l <> "" /\ utf8_valid l = true /\
                   (strip l = "" \/ not_json (strip l) = true)) noise ->
  utf8_valid line = true -> strip line <> "" ->
  json_loads (strip line) = Ok v ->
  fst (_read_next_json_message self) = Ok v /\
  (stdout <$> process (snd (_read_next_json_message self))) = Some rest /\
  fst (_send_request_stdio method params self) = response_outcome v /\
  ~ raises (fst (_send_request_stdio method params self)) JSONDecodeError.
Proof.
  intros Hp Hpipe Hout Hnoise Hutf Hne Hj.
  destruct (read_loop_skip_all noise (line :: rest) Hnoise) as [Hr1 Hr2].
  destruct (read_loop_accept line rest v Hutf Hne Hj) as [Ha1 Ha2].
  rewrite Ha1 in Hr1. rewrite Ha2 in Hr2. rewrite <- Hout in Hr1, Hr2.
  assert (fst (_send_request_stdio method params self) = response_outcome v)
    as Hsend.
  { rewrite (send_request_stdio_unfold _ _ _ _ Hp). simpl. rewrite Hpipe.
    destruct (read_loop (stdout p)) as [[r rest'] evs]. simpl in *.
    subst r. reflexivity. }
  repeat split.
  - unfold _read_next_json_message. rewrite Hp.
    destruct (read_loop (stdout p)) as [[r rest'] evs]. exact Hr1.
  - unfold _read_next_json_message. rewrite Hp.
    destruct (read_loop (stdout p)) as [[r rest'] evs]. simpl in *.
    congruence.
  - exact Hsend.
  - rewrite Hsend. destruct (response_outcome v) as [a|e] eqn:Hv; [tauto|].
    simpl. intros Hc. apply response_outcome_raises in Hv.
    rewrite Hc in Hv. simpl in Hv. intuition discriminate.
Qed.


(** Bytes that are not UTF-8 are not text: [line.decode()] raises and the
    exception leaves the loop (its handler is for [JSONDecodeError]). *)
Lemma undecodable_line_raises line out :
  line <> "" -> utf8_valid line = false ->
  raises (read_loop (line :: out)).1.1 UnicodeDecodeError.
Proof.
  intros Hne Hutf. simpl. rewrite (str_empty_false _ Hne).
  unfold decode. rewrite Hutf. reflexivity.
Qed.

(** C6. The reader means to ignore every line that is not JSON (its
    docstring says so, and the comment in its handler: "don't crash"), but
    only two kinds of such lines are passed over: blank ones, and text that
    [json.loads] rejects with [JSONDecodeError].  A line of bytes that are
    not UTF-8 is decoded outside the [try] and ends the read, and the call
    that was waiting, in [UnicodeDecodeError]; a line on which [json.loads]
    raises something other than [JSONDecodeError] (an integer of too many
    digits, a nesting too deep) ends them in that exception.  Either way
    what follows the line, a valid response included, is not returned. *)
Theorem non_json_line_raises self p noise line rest method params :
  process self = Some p ->
  stdin_broken (trace self) = false ->
  stdout p = noise ++ line :: rest ->
  Forall (fun l => l <> "" /\ utf8_valid l = true /\
                   (strip l = "" \/ not_json (strip l) = true)) noise ->
  line <> "" ->
  (utf8_valid line = false ->
   raises (fst (_read_next_json_message self)) UnicodeDecodeError /\
   raises (fst (_send_request_stdio method params self)) UnicodeDecodeError)
  /\
  (forall e,
     utf8_valid line = true -> strip line <> "" ->
     json_loads (strip line) = Raise e -> is_decode_error e = false ->
     fst (_read_next_json_message self) = Raise e /\
     fst (_send_request_stdio method params self) = Raise e).
Proof.
  intros Hp Hpipe Hout Hnoise Hne.
  destruct (read_loop_skip_all noise (line :: rest) Hnoise) as [Hr _].
  rewrite <- Hout in Hr.
  assert (forall e, (read_loop (line :: rest)).1.1 = Raise e ->
            fst (_read_next_json_message self) = Raise e /\
            fst (_send_request_stdio method params self) = Raise e) as Hboth.
  { intros e He. rewrite He in Hr.
    rewrite (send_request_stdio_unfold _ _ _ _ Hp). cbv zeta. rewrite Hpipe.
    unfold _read_next_json_message. rewrite Hp.
    destruct (read_loop (stdout p)) as [[r rest'] evs]. simpl in *.
    subst r. done. }
  split.
  - intros Hutf.
    destruct (Hboth (Exn UnicodeDecodeError (MLit "invalid utf-8")))
      as [-> ->]; [|done].
    simpl. rewrite (str_empty_false _ Hne). unfold decode. by rewrite Hutf.
  - intros e Hutf Hblank Hj He. apply Hboth.
    simpl. rewrite (str_empty_false _ Hne). unfold decode. rewrite Hutf.
    rewrite (str_empty_false _ Hblank), Hj, He. reflexivity.
Qed.


(** The two states without a process: a client that was never connected,
    and a client after [disconnect()]. *)
Lemma call_without_process self method params :
  process self = None ->
  raises (fst (_send_request_stdio method params self))
         LinkedInMCPConnectionError.
Proof.
  intros Hp. unfold _send_request_stdio. unfold_m. rewrite Hp. reflexivity.
Qed.

Corollary call_before_connect transport command http_url seconds method params :
  raises (fst (_send_request_stdio method params
                 (__init__ transport command http_url seconds)))
         LinkedInMCPConnectionError.
Proof. apply call_without_process. reflexivity. Qed.

Corollary call_after_disconnect self method params :
  raises (fst (_send_request_stdio method params (snd (disconnect self))))
         LinkedInMCPConnectionError.
Proof.
  apply call_without_process.
  unfold disconnect, Popen_wait. unfold_m.
  destruct (process self) as [p|] eqn:Hp; simpl; rewrite Hp; simpl; [|done].
  destruct (exits_on_terminate p); reflexivity.
Qed.

(** C1 (as amended). A call on the subprocess transport returns the outcome
    of the first JSON message read after its request is written, whatever
    id that message carries: the outcome is the same for every value of
    its ["id"] member and also without one.  (A request that the pipe does
    not take is not written: the call ends in [BrokenPipeError] and reads
    nothing.)  The statement holds in every state of the client, hence for
    each call of any sequence of calls. *)
Theorem response_taken_by_position self p method params response rest evs :
  process self = Some p ->
  read_loop (stdout p) = (Ok response, rest, evs) ->
  fst (_send_request_stdio method params self)
    = (if stdin_broken (trace self) then Raise broken_pipe
       else response_outcome response) /\
  forall d, response = JDict d ->
    (forall j, response_outcome (JDict (<["id" := j]> d))
               = response_outcome response) /\
    response_outcome (JDict (delete "id" d)) = response_outcome response.
Proof.
  intros Hp Hread. split.
  - rewrite (send_request_stdio_unfold _ _ _ _ Hp). simpl.
    destruct (stdin_broken (trace self)); [reflexivity|].
    rewrite Hread. reflexivity.
  - intros d ->. split; [intros j|]; rewrite !response_outcome_dict.
    + rewrite !lookup_insert_ne by discriminate. reflexivity.
    + rewrite !lookup_delete_ne by discriminate. reflexivity.
Qed.

(** Reading writes nothing: the events of the read loop carry no request. *)
Lemma read_loop_sends_nothing out : sent_ids (read_loop out).2 = [].
Proof.
  induction out as [|line out IH]; [reflexivity|]. simpl.
  destruct (str_empty line); [reflexivity|].
  destruct (decode line) as [text|e]; [|reflexivity].
  destruct (str_empty (strip text)).
  - destruct (read_loop out) as [[r rest] evs]. exact IH.
  - destruct (json_loads (strip text)) as [v|e]; [reflexivity|].
    destruct (is_decode_error e); [|reflexivity].
    destruct (read_loop out) as [[r rest] evs]. exact IH.
Qed.

Lemma sent_ids_app evs1 evs2 :
  sent_ids (evs1 ++ evs2) = sent_ids evs1 ++ sent_ids evs2.
Proof. unfold sent_ids. apply omap_app. Qed.

Lemma request_id_of_make_request id method params :
  request_id_of (make_request id method params) = Some (JInt id).
Proof. reflexivity. Qed.

(** Every request that goes through [_send_request] takes the next value of
    the counter: on both transports the id of the request handed to the
    pipe or posted is one more than the counter was, and the counter is
    left at that id. *)
Lemma send_request_takes_next_id self method params :
  (transport self = "stdio" /\ process self <> None) \/ transport self = "http" ->
  let self' := snd (_send_request method params self) in
  sent_ids (trace self')
    = sent_ids (trace self) ++ [JInt (request_id self + 1)] /\
  request_id self' = request_id self + 1.
Proof.
  intros Ht. unfold _send_request. unfold_m.
  destruct Ht as [[Ht Hp]| Ht]; rewrite Ht; simpl.
  - destruct (process self) as [p|] eqn:Hpp; [|done].
    rewrite (send_request_stdio_unfold _ _ _ _ Hpp). simpl.
    destruct (stdin_broken (trace self)); simpl;
      [rewrite sent_ids_app; done|].
    pose proof (read_loop_sends_nothing (stdout p)) as Hr.
    destruct (read_loop (stdout p)) as [[r rest] evs]. simpl in *.
    rewrite !sent_ids_app, Hr, app_nil_r. done.
  - rewrite send_request_http_unfold. simpl.
    rewrite sent_ids_app. done.
Qed.

(** Across calls the counter never goes down, whatever the outcome. *)
Lemma send_request_counter_monotone self method params :
  request_id self <= request_id (snd (_send_request method params self)).
Proof.
  unfold _send_request. unfold_m.
  destruct (String.eqb (transport self) "stdio") eqn:Ht.
  - destruct (process self) as [p|] eqn:Hp.
    + rewrite (send_request_stdio_unfold _ _ _ _ Hp). simpl.
      destruct (stdin_broken (trace self)); simpl; [lia|].
      destruct (read_loop (stdout p)) as [[r rest] evs]. simpl. lia.
    + unfold _send_request_stdio. unfold_m. rewrite Hp. simpl. lia.
  - destruct (String.eqb (transport self) "http").
    + rewrite send_request_http_unfold. simpl. lia.
    + simpl. lia.
Qed.

(** A call changes neither the transport nor whether there is a process. *)
Lemma send_request_keeps_transport self method params :
  let self' := snd (_send_request method params self) in
  transport self' = transport self /\
  (process self <> None -> process self' <> None).
Proof.
  unfold _send_request. unfold_m.
  destruct (String.eqb (transport self) "stdio") eqn:Ht.
  - destruct (process self) as [p|] eqn:Hp.
    + rewrite (send_request_stdio_unfold _ _ _ _ Hp). simpl.
      destruct (stdin_broken (trace self)); simpl; [rewrite Hp; done|].
      destruct (read_loop (stdout p)) as [[r rest] evs]. simpl. done.
    + unfold _send_request_stdio. unfold_m. rewrite Hp. simpl. done.
  - destruct (String.eqb (transport self) "http").
    + rewrite send_request_http_unfold. simpl. done.
    + simpl. done.
Qed.

(** The ids of any number of calls in a row are consecutive: from a counter
    at [n] they are [n+1], [n+2], ..., whatever the outcomes. *)
Lemma calls_take_consecutive_ids requests : forall self,
  (transport self = "stdio" /\ process self <> None) \/ transport self = "http" ->
  sent_ids (trace (calls requests self)) =
    sent_ids (trace self)
    ++ map (fun i => JInt (request_id self + Z.of_nat i))
           (seq 1 (length requests)).
Proof.
  induction requests as [|[method params] requests IH]; intros self Hself.
  - simpl. rewrite app_nil_r. reflexivity.
  - cbn [calls length].
    destruct (send_request_takes_next_id self method params Hself) as [Hids Hn].
    destruct (send_request_keeps_transport self method params) as [Ht Hp].
    rewrite IH.
    + rewrite Hids, Hn, <- app_assoc. f_equal. cbn [seq map app].
      f_equal.
      rewrite <- (seq_shift (length requests) 1), map_map.
      apply map_ext. intros i. f_equal. lia.
    + rewrite Ht. destruct Hself as [[? ?]|?]; [left|right]; auto.
Qed.

(** ** Connecting *)

(** Every class of the model derives from [Exception]. *)
Lemma every_class_is_an_exception c : issubclass c PyException = true.
Proof. destruct c; reflexivity. Qed.

Lemma try_except_Exception {S A} (body : M S A) handler s :
  try_except body PyException handler s =
    match body s with
    | (Raise e, s') => handler e s'
    | r => r
    end.
Proof.
  unfold try_except. destruct (body s) as [[a|e] s']; [reflexivity|].
  rewrite every_class_is_an_exception. reflexivity.
Qed.

(** [connect()] on the subprocess transport of a client without a process,
    step by step: the child is spawned, the [initialize] request handed to
    the pipe, one message read, and the [initialized] notification handed
    to the pipe unless the message has an ["error"] member.  Whatever is
    raised on the way is wrapped. *)
Lemma connect_unfold self :
  transport self = "stdio" -> process self = None ->
  connect self =
    let failed e :=
      Raise (Exn LinkedInMCPConnectionError
                 (MFmtExn "Failed to start server: " (exn_cls e) (exn_msg e))) in
    match spawn (command self) with
    | None =>
        (failed (Exn OSError (MLit "No such file or directory")),
         log [Spawn (command self)] self)
    | Some p =>
        let self0 :=
          log [Write init_request]
              (set_process (Some p) (log [Spawn (command self)] self)) in
        if stdin_broken (trace self ++ [Spawn (command self)])
        then (failed broken_pipe, self0)
        else
          let '(r, rest, evs) := read_loop (stdout p) in
          let self1 :=
            log evs
              (set_process
                 (Some {| stdout := rest;
                          exits_on_terminate := exits_on_terminate p |})
                 self0) in
          match r with
          | Raise e => (failed e, self1)
          | Ok response =>
              match py_in "error" response with
              | Raise e => (failed e, self1)
              | Ok true =>
                  match py_getitem response "error" with
                  | Raise e => (failed e, self1)
                  | Ok error =>
                      (failed (Exn LinkedInMCPConnectionError
                                   (MFmt "Initialize failed: " error)), self1)
                  end
              | Ok false =>
                  (if stdin_broken (trace self1)
                   then failed broken_pipe else Ok tt,
                   log [Write initialized] self1)
              end
          end
    end.
Proof.
  intros Ht Hp. unfold connect, Popen_start, _initialize. unfold_m.
  rewrite Ht, Hp. simpl.
  destruct (spawn (command self)) as [p|]; simpl; [|reflexivity].
  destruct (stdin_broken (trace self ++ [Spawn (command self)])); simpl;
    rewrite ?every_class_is_an_exception; [reflexivity|].
  unfold _read_next_json_message. simpl.
  destruct (read_loop (stdout p)) as [[[response|e] rest] evs]; simpl;
    rewrite ?every_class_is_an_exception; [|reflexivity].
  destruct (py_in "error" response) as [[|]|e]; simpl;
    rewrite ?every_class_is_an_exception; try reflexivity.
  - destruct (py_getitem response "error") as [error|e]; simpl;
      rewrite ?every_class_is_an_exception; reflexivity.
  - destruct (stdin_broken _); simpl;
      rewrite ?every_class_is_an_exception; reflexivity.
Qed.

Lemma transport_is s t : String.eqb s t = true -> s = t.
Proof. apply String.eqb_eq. Qed.

(** C3. The handshake does not draw its id from the counter: on a new
    client whose server answers the [initialize] request without an error,
    [connect()] sends id 1 and leaves the counter at 0, so the first call
    sends id 1 again.  ([connect()] succeeds when the pipe takes the two
    messages of the handshake; the ids are the same when it does not.) *)
Theorem handshake_id_reused p d rest evs method params seconds :
  let self := __init__ "stdio" None None seconds in
  spawn (command self) = Some p ->
  read_loop (stdout p) = (Ok (JDict d), rest, evs) ->
  d !! "error" = None ->
  let '(connected, self1) := connect self in
  let '(_, self2) := _send_request method params self1 in
  (stdin_broken [Spawn (command self)] = false ->
   stdin_broken ([Spawn (command self); Write init_request] ++ evs) = false ->
   connected = Ok tt) /\
  request_id self1 = 0 /\
  sent_ids (trace self1) = [JInt 1] /\
  sent_ids (trace self2) = [JInt 1; JInt 1].
Proof.
  intros self Hspawn Hread Herr.
  assert (py_in "error" (JDict d) = Ok false) as Hin.
  { simpl. rewrite bool_decide_eq_false_2; [reflexivity|].
    rewrite Herr. intros [x Hx]. discriminate. }
  pose proof (read_loop_sends_nothing (stdout p)) as Hevs.
  rewrite Hread in Hevs. simpl in Hevs.
  assert (forall (connected : result unit) self1,
            transport self1 = "stdio" -> process self1 <> None ->
            request_id self1 = 0 -> sent_ids (trace self1) = [JInt 1] ->
            (stdin_broken [Spawn (command self)] = false ->
             stdin_broken ([Spawn (command self); Write init_request] ++ evs)
               = false ->
             connected = Ok tt) ->
            let '(_, self2) := _send_request method params self1 in
            (stdin_broken [Spawn (command self)] = false ->
             stdin_broken ([Spawn (command self); Write init_request] ++ evs)
               = false ->
             connected = Ok tt) /\
            request_id self1 = 0 /\
            sent_ids (trace self1) = [JInt 1] /\
            sent_ids (trace self2) = [JInt 1; JInt 1]) as Htail.
  { intros connected self1 Ht Hp H0 H1 Hok.
    pose proof (send_request_takes_next_id self1 method params
                  (or_introl (conj Ht Hp))) as Hnext.
    destruct (_send_request method params self1) as [r self2].
    simpl in Hnext. destruct Hnext as [Hids _].
    rewrite Hids, H1, H0. done. }
  rewrite (connect_unfold self eq_refl eq_refl). cbv zeta.
  rewrite Hspawn.
  change (trace self ++ [Spawn (command self)]) with [Spawn (command self)].
  destruct (stdin_broken [Spawn (command self)]) eqn:Hw1.
  { apply Htail; try done. }
  rewrite Hread, Hin.
  apply Htail; try done.
  - simpl. rewrite !sent_ids_app, Hevs. reflexivity.
  - intros _ Hw2. simpl. change (stdin_broken _) with
      (stdin_broken ([Spawn (command self); Write init_request] ++ evs)).
    rewrite Hw2. reflexivity.
Qed.

(** C4. On the HTTP transport a response whose status is not 2xx leaves
    [_send_request_http] as httpx's [HTTPStatusError]: the handler catches
    [httpx.RequestError], which [HTTPStatusError] is not derived from. *)
Theorem http_status_error_escapes self method params status_code body :
  http_post (http_url self) (make_request (request_id self + 1) method params)
    = HttpResponse status_code body ->
  ~ (200 <= status_code <= 299) ->
  let r := fst (_send_request_http method params self) in
  raises r HTTPStatusError /\ ~ raises r LinkedInMCPConnectionError.
Proof.
  intros Hpost Hstatus. rewrite send_request_http_unfold. simpl.
  rewrite Hpost.
  replace ((200 <=? status_code) && (status_code <=? 299)) with false.
  - simpl. split; [reflexivity|discriminate].
  - symmetry. apply andb_false_iff.
    destruct (Z.leb_spec 200 status_code); [|by left].
    right. apply Z.leb_gt. lia.
Qed.

(** The two parts of the HTTP contract that do hold: a network failure is
    reported as the connection error, and a 2xx response goes through the
    same error check as a response on the subprocess transport. *)
Lemma http_network_failure self method params detail :
  http_post (http_url self) (make_request (request_id self + 1) method params)
    = NetworkFailure detail ->
  raises (fst (_send_request_http method params self))
         LinkedInMCPConnectionError.
Proof.
  intros Hpost. rewrite send_request_http_unfold. simpl.
  rewrite Hpost. reflexivity.
Qed.

Lemma http_success_inspected self method params status_code body result :
  http_post (http_url self) (make_request (request_id self + 1) method params)
    = HttpResponse status_code body ->
  200 <= status_code <= 299 ->
  json_loads body = Ok result ->
  fst (_send_request_http method params self) = response_outcome result.
Proof.
  intros Hpost Hstatus Hbody. rewrite send_request_http_unfold. simpl.
  rewrite Hpost.
  replace ((200 <=? status_code) && (status_code <=? 299)) with true
    by (symmetry; apply andb_true_iff; split; apply Z.leb_le; lia).
  rewrite Hbody. reflexivity.
Qed.

(** C8. [disconnect()] never raises and leaves the client without a
    process; called again it returns without touching anything: the client
    is unchanged, and no [terminate], [wait] or [kill] is added to the
    trace. *)
Theorem disconnect_idempotent self :
  let '(first, self1) := disconnect self in
  first = Ok tt /\
  process self1 = None /\
  disconnect self1 = (Ok tt, self1).
Proof.
  unfold disconnect, Popen_wait. unfold_m.
  destruct (process self) as [p|] eqn:Hp; simpl.
  - rewrite Hp. simpl. destruct (exits_on_terminate p); simpl; done.
  - rewrite Hp. done.
Qed.

(** What the first [disconnect()] does to a running child: one
    [terminate], one [wait], and a [kill] only if the child did not exit
    in time. *)
Lemma disconnect_trace self p :
  process self = Some p ->
  trace (snd (disconnect self)) =
    trace self ++ [Terminate] ++ [Wait (exits_on_terminate p)]
               ++ (if exits_on_terminate p then [] else [Kill]).
Proof.
  intros Hp. unfold disconnect, Popen_wait. unfold_m. rewrite Hp. simpl.
  rewrite Hp. simpl.
  destruct (exits_on_terminate p); simpl; rewrite <- !app_assoc; reflexivity.
Qed.





(** What [call_tool] puts on the wire of a started client. *)
Lemma call_tool_sends self p name arguments :
  transport self = "stdio" -> process self = Some p ->
  exists evs,
    trace (snd (call_tool name arguments self)) =
      trace self
      ++ Write (make_request (request_id self + 1) "tools/call"
                  (JDict {[ "name" := JStr name; "arguments" := arguments ]}))
      :: evs.
Proof.
  intros Ht Hp. unfold call_tool, _send_request. unfold_m. rewrite Ht. simpl.
  rewrite (send_request_stdio_unfold _ _ _ _ Hp). simpl.
  destruct (stdin_broken (trace self)); simpl.
  { exists []. reflexivity. }
  destruct (read_loop (stdout p)) as [[r rest] evs]. simpl.
  exists evs. rewrite <- app_assoc. reflexivity.
Qed.

(** ** Tasks *)

Lemma log_log evs1 evs2 q1 q2 self :
  log evs2 (set_process q2 (log evs1 (set_process q1 self)))
  = log (evs1 ++ evs2) (set_process q2 self).
Proof. unfold log, set_process. simpl. rewrite app_assoc. reflexivity. Qed.

Lemma drive_step fuel t self :
  drive (S fuel) t self =
    let '(t', self') := resume t self in
    match t' with
    | Finished _ => (t', self')
    | _ => drive fuel t' self'
    end.
Proof. reflexivity. Qed.

Lemma resume_awaiting self p :
  process self = Some p ->
  resume AwaitingLine self =
    let '(line, p') := readline p in
    let '(r, evs) := read_one line in
    (match r with
     | None => AwaitingLine
     | Some (Raise e) => Finished (Raise e)
     | Some (Ok response) => Finished (response_outcome response)
     end, log evs (set_process (Some p') self)).
Proof.
  intros Hp. unfold resume. rewrite Hp.
  destruct (readline p) as [line p'].
  destruct (read_one line) as [[[response|e]|] evs]; reflexivity.
Qed.

Lemma drive_awaiting out : forall self p,
  process self = Some p -> stdout p = out ->
  drive (S (length out)) AwaitingLine self =
    let '(r, rest, evs) := read_loop out in
    (Finished match r with
              | Ok response => response_outcome response
              | Raise e => Raise e
              end,
     log evs
       (set_process
          (Some {| stdout := rest; exits_on_terminate := exits_on_terminate p |})
          self)).
Proof.
  induction out as [|line out IH]; intros self p Hp Hout;
    rewrite drive_step, (resume_awaiting _ _ Hp); unfold readline;
    rewrite Hout.
  - destruct p as [o x]. simpl in *. subst o. reflexivity.
  - cbn [read_loop length]. unfold read_one.
    destruct (str_empty line); [reflexivity|].
    destruct (decode line) as [text|e]; [|reflexivity].
    destruct (str_empty (strip text)).
    + rewrite (IH _ {| stdout := out;
                       exits_on_terminate := exits_on_terminate p |})
        by reflexivity.
      destruct (read_loop out) as [[r rest] evs]. cbn [exits_on_terminate].
      rewrite log_log. reflexivity.
    + destruct (json_loads (strip text)) as [v|e]; [reflexivity|].
      destruct (is_decode_error e); [|reflexivity].
      rewrite (IH _ {| stdout := out;
                       exits_on_terminate := exits_on_terminate p |})
        by reflexivity.
      destruct (read_loop out) as [[r rest] evs]. cbn [exits_on_terminate].
      rewrite log_log. reflexivity.
Qed.

(** A task that runs alone does what [_send_request_stdio] does: the
    stages of a task are the sequential code cut at its suspension
    points. *)
Lemma task_alone_is_sequential self p method params :
  process self = Some p ->
  drive (2 + length (stdout p)) (Created method params) self =
    (Finished (fst (_send_request_stdio method params self)),
     snd (_send_request_stdio method params self)).
Proof.
  intros Hp. rewrite (send_request_stdio_unfold _ _ _ _ Hp).
  change (2 + length (stdout p))%nat with (S (S (length (stdout p)))).
  rewrite drive_step. unfold resume. rewrite Hp.
  unfold _get_next_id, stdin_write. cbn [fst snd].
  change (trace (set_request_id (request_id self + 1) self))
    with (trace self).
  destruct (stdin_broken (trace self)); [reflexivity|].
  rewrite (drive_awaiting (stdout p) _ p) by (simpl; done).
  destruct (read_loop (stdout p)) as [[r rest] evs]. reflexivity.
Qed.

(** No stage of a task takes the lock. *)
Lemma resume_leaves_lock t self :
  _lock (snd (resume t self)) = _lock self.
Proof.
  destruct t as [method params| |r]; simpl; [| |reflexivity].
  - destruct (process self); [|reflexivity].
    destruct (stdin_broken _); reflexivity.
  - destruct (process self) as [p|]; [|reflexivity].
    destruct (readline p) as [line p'].
    destruct (read_one line) as [[[response|e]|] evs]; reflexivity.
Qed.

(** ** Outcomes of connecting *)

(** The outcomes of [connect()]. *)
Lemma connect_ok_or_wrapped self :
  fst (connect self) = Ok tt \/
  raises (fst (connect self)) LinkedInMCPConnectionError.
Proof.
  destruct (String.eqb (transport self) "stdio") eqn:Ht.
  - pose proof (transport_is _ _ Ht) as Ht'.
    destruct (process self) as [p|] eqn:Hp.
    + left. unfold connect. unfold_m. rewrite Ht, Hp. reflexivity.
    + rewrite (connect_unfold _ Ht' Hp). cbv zeta.
      destruct (spawn (command self)) as [p|]; [|by right].
      destruct (stdin_broken _); [by right|].
      destruct (read_loop (stdout p)) as [[[response|e] rest] evs];
        [|by right].
      destruct (py_in "error" response) as [[|]|e]; [| |by right].
      * destruct (py_getitem response "error"); by right.
      * destruct (stdin_broken _); [by right|by left].
  - left. unfold connect, health_probe. unfold_m. rewrite Ht.
    destruct (String.eqb (transport self) "http"); reflexivity.
Qed.

(** [connect()] raises nothing but the connection error: whatever goes
    wrong while the child is started and greeted is wrapped, and the other
    transports raise nothing at all. *)
Theorem connect_raises_only_connection_error self :
  fst (connect self) = Ok tt \/
  raises (fst (connect self)) LinkedInMCPConnectionError.
Proof. apply connect_ok_or_wrapped. Qed.

(** The read loop only reads and prints. *)
Lemma read_loop_events out :
  Forall (fun ev => match ev with Read _ | Stderr _ => True | _ => False end)
         (read_loop out).2.
Proof.
  induction out as [|line out IH]; simpl.
  - repeat constructor.
  - destruct (str_empty line); [repeat constructor|].
    destruct (decode line) as [text|e]; [|repeat constructor].
    destruct (str_empty (strip text)).
    + destruct (read_loop out) as [[r rest] evs]. by constructor.
    + destruct (json_loads (strip text)) as [v|e]; [repeat constructor|].
      destruct (is_decode_error e); [|repeat constructor].
      destruct (read_loop out) as [[r rest] evs]. by repeat constructor.
Qed.

(** A handshake that fails after the child was started leaves the child
    running and in place: [connect()] raises, but [process] stays set and
    no [terminate] or [kill] was sent; a second [connect()] then returns at
    once, without a handshake. *)
Theorem failed_connect_keeps_process self p :
  transport self = "stdio" -> process self = None ->
  spawn (command self) = Some p ->
  fst (connect self) <> Ok tt ->
  let self1 := snd (connect self) in
  process self1 <> None /\
  connect self1 = (Ok tt, self1) /\
  exists evs, trace self1 = trace self ++ evs /\
              Forall (fun ev => ev <> Terminate /\ ev <> Kill) evs.
Proof.
  intros Ht Hp Hspawn _.
  assert (transport (snd (connect self)) = "stdio" /\
          process (snd (connect self)) <> None /\
          exists evs0, trace (snd (connect self)) = trace self ++ evs0 /\
                       Forall (fun ev => ev <> Terminate /\ ev <> Kill) evs0)
    as (Ht1 & Hp1 & Htrace).
  { rewrite (connect_unfold _ Ht Hp), Hspawn. cbv zeta.
    pose proof (read_loop_events (stdout p)) as Hevs.
    destruct (stdin_broken _).
    { simpl. split; [done|]. split; [discriminate|].
      exists [Spawn (command self); Write init_request].
      split; [by rewrite <- app_assoc|]. repeat constructor; discriminate. }
    destruct (read_loop (stdout p)) as [[r rest] evs]. simpl in Hevs.
    assert (Forall (fun ev => ev <> Terminate /\ ev <> Kill)
                   ([Spawn (command self); Write init_request] ++ evs))
      as Hquiet.
    { apply Forall_app. split; [repeat constructor; discriminate|].
      eapply Forall_impl; [exact Hevs|]. intros [] Hev; try done. }
    assert (forall (r0 : result unit),
              let self1 :=
                (r0, log evs
                       (set_process
                          (Some {| stdout := rest;
                                   exits_on_terminate := exits_on_terminate p |})
                          (log [Write init_request]
                             (set_process (Some p)
                                (log [Spawn (command self)] self))))).2 in
              transport self1 = "stdio" /\ process self1 <> None /\
              exists evs0, trace self1 = trace self ++ evs0 /\
                Forall (fun ev => ev <> Terminate /\ ev <> Kill) evs0)
      as Hsame.
    { intros r0. simpl. split; [done|]. split; [discriminate|].
      eexists. split; [|exact Hquiet]. rewrite <- !app_assoc. reflexivity. }
    destruct r as [response|e]; [|apply Hsame].
    destruct (py_in "error" response) as [[|]|e]; [| |apply Hsame].
    - destruct (py_getitem response "error"); apply Hsame.
    - simpl. split; [done|]. split; [discriminate|].
      exists (([Spawn (command self); Write init_request] ++ evs)
              ++ [Write initialized]).
      split; [by rewrite <- !app_assoc|].
      apply Forall_app. split; [exact Hquiet|].
      repeat constructor; discriminate. }
  cbv zeta. remember (snd (connect self)) as self1 eqn:E. clear E.
  split; [exact Hp1|]. split; [|exact Htrace].
  unfold connect. unfold_m. rewrite Ht1. simpl.
  destruct (process self1); [reflexivity|done].
Qed.

(** The order of the handshake on the wire: the child is spawned, the
    [initialize] request is written, the output is read up to the first
    message, and the [initialized] notification follows exactly when that
    message has no ["error"] member, which is also exactly when
    [connect()] succeeds.  This is so when the pipe takes what is written;
    a write that fails ends the handshake where it is, and [connect()]
    fails. *)
Theorem handshake_order self p response rest evs (has_error : bool) :
  transport self = "stdio" -> process self = None ->
  spawn (command self) = Some p ->
  read_loop (stdout p) = (Ok response, rest, evs) ->
  py_in "error" response = Ok has_error ->
  let first_fails := stdin_broken (trace self ++ [Spawn (command self)]) in
  let second_fails :=
    stdin_broken (((trace self ++ [Spawn (command self)])
                   ++ [Write init_request]) ++ evs) in
  trace (snd (connect self)) =
    trace self ++ [Spawn (command self); Write init_request]
    ++ (if first_fails then []
        else evs ++ (if has_error then [] else [Write initialized])) /\
  (fst (connect self) = Ok tt <->
   first_fails = false /\ has_error = false /\ second_fails = false).
Proof.
  intros Ht Hp Hspawn Hread Herr first_fails second_fails.
  rewrite (connect_unfold _ Ht Hp), Hspawn. cbv zeta.
  fold first_fails. destruct first_fails.
  { simpl. rewrite <- app_assoc. split; [done|]. split; [done|].
    intros (? & _); done. }
  rewrite Hread, Herr.
  destruct has_error.
  - destruct (py_getitem response "error"); simpl;
      rewrite app_nil_r, <- !app_assoc; (split; [done|]);
      (split; [done|intros (_ & ? & _); done]).
  - cbn [fst snd log trace set_process]. fold second_fails.
    rewrite <- !app_assoc. split; [done|].
    destruct second_fails; simpl; split; try done.
    intros (_ & _ & ?); done.
Qed.

(** ** Listing the tools *)

(** [list_tools()] on a response without an error: the ["tools"] member of
    the result, the empty list when the result has none or the response has
    no result; a result that is not an object makes it fail with
    [AttributeError].  (When the pipe does not take the request, the call
    has ended in [BrokenPipeError] before anything is read.) *)
Theorem list_tools_result self p d rest evs :
  transport self = "stdio" -> process self = Some p ->
  read_loop (stdout p) = (Ok (JDict d), rest, evs) ->
  d !! "error" = None ->
  if stdin_broken (trace self)
  then fst (list_tools self) = Raise broken_pipe
  else
    match d !! "result" with
    | None => fst (list_tools self) = Ok (JList [])
    | Some (JDict result) =>
        fst (list_tools self) = Ok (default (JList []) (result !! "tools"))
    | Some _ => raises (fst (list_tools self)) AttributeError
    end.
Proof.
  intros Ht Hp Hread Herr.
  unfold list_tools, _send_request. unfold_m. rewrite Ht. simpl.
  rewrite (send_request_stdio_unfold _ _ _ _ Hp). simpl.
  destruct (stdin_broken (trace self)); [reflexivity|]. rewrite Hread.
  rewrite response_outcome_dict, Herr.
  destruct (d !! "result") as [[| | | | |result]|]; reflexivity.
Qed.

(** ** The session context manager *)

Lemma disconnect_clears self :
  fst (disconnect self) = Ok tt /\ process (snd (disconnect self)) = None.
Proof.
  unfold disconnect, Popen_wait. unfold_m.
  destruct (process self) as [p|] eqn:Hp; simpl; rewrite Hp; simpl; [|done].
  destruct (exits_on_terminate p); done.
Qed.

(** [async with client.session()]: when [connect()] succeeds the body's
    outcome, value or exception, is passed on and the client is left without
    a process whatever the body did; when [connect()] raises, the body is
    not run and [disconnect()] is not called. *)
Theorem session_always_disconnects {A} (body : M LinkedInMCPClient A) self :
  match connect self with
  | (Ok _, self1) =>
      fst (session body self) = fst (body self1) /\
      process (snd (session body self)) = None
  | (Raise e, self1) => session body self = (Raise e, self1)
  end.
Proof.
  unfold session, try_finally. unfold_m.
  destruct (connect self) as [[[]|e] self1]; [|reflexivity].
  destruct (body self1) as [r self2]. simpl.
  destruct (disconnect_clears self2) as [Hok Hnone].
  destruct (disconnect self2) as [[[]|e] self3]; simpl in *; [done|discriminate].
Qed.

(** ** Calls that fail *)

(** A transport other than the two known ones is accepted when the client
    is made and by [connect()], which does nothing; every call then raises
    [LinkedInMCPError] and leaves the client as it was: no id is taken and
    nothing is sent. *)
Theorem unknown_transport self method params :
  transport self <> "stdio" -> transport self <> "http" ->
  connect self = (Ok tt, self) /\
  _send_request method params self =
    (Raise (Exn LinkedInMCPError
                (MFmt "Unknown transport: " (JStr (transport self)))), self).
Proof.
  intros Hs Hh. apply String.eqb_neq in Hs, Hh.
  unfold connect, _send_request. unfold_m. rewrite Hs, Hh. done.
Qed.

(** What a failed call costs.  On the subprocess transport a call made
    without a process is refused before anything happens: the client is
    unchanged.  On the HTTP transport the id is taken before the request is
    posted, so a request that fails on the network raises the connection
    error with the next id used up. *)
Theorem failed_call_and_counter self method params :
  (process self = None ->
   snd (_send_request_stdio method params self) = self) /\
  (forall detail,
     http_post (http_url self)
               (make_request (request_id self + 1) method params)
       = NetworkFailure detail ->
     let '(r, self') := _send_request_http method params self in
     r = Raise (Exn LinkedInMCPConnectionError
                    (MFmtExn "HTTP request failed: " RequestError
                             (MLit detail))) /\
     request_id self' = request_id self + 1 /\
     sent_ids (trace self')
       = sent_ids (trace self) ++ [JInt (request_id self + 1)]).
Proof.
  split.
  - intros Hp. unfold _send_request_stdio. unfold_m. rewrite Hp. reflexivity.
  - intros detail Hpost. rewrite send_request_http_unfold. simpl.
    rewrite Hpost. rewrite sent_ids_app. done.
Qed.

(** A text that is not JSON makes [json.loads] raise [JSONDecodeError]. *)
Lemma not_json_raises text :
  not_json text = true ->
  exists e, json_loads text = Raise e /\ exn_cls e = JSONDecodeError.
Proof.
  unfold not_json, json_loads.
  destruct (json_parse text); simpl; intros Hn; try discriminate; eauto.
Qed.

(** A 2xx response whose body is not JSON: [response.json()] raises inside
    the [try], the handler is for [httpx.RequestError], and the call ends
    in [JSONDecodeError], not in the connection error. *)
Theorem http_body_not_json self method params status_code body :
  http_post (http_url self) (make_request (request_id self + 1) method params)
    = HttpResponse status_code body ->
  200 <= status_code <= 299 ->
  not_json body = true ->
  let r := fst (_send_request_http method params self) in
  raises r JSONDecodeError /\ ~ raises r LinkedInMCPConnectionError.
Proof.
  intros Hpost Hstatus Hbody. rewrite send_request_http_unfold. simpl.
  rewrite Hpost.
  replace ((200 <=? status_code) && (status_code <=? 299)) with true
    by (symmetry; apply andb_true_iff; split; apply Z.leb_le; lia).
  destruct (not_json_raises _ Hbody) as (e & -> & He).
  simpl. rewrite He. split; [reflexivity|discriminate].
Qed.

(** ** What no operation touches *)

(** [connect()], [disconnect()] and the calls leave the configuration
    (transport, command, URL, time-out) as it is and never take the lock;
    [connect()] and [disconnect()] also leave the id counter alone, so a
    client that is disconnected and connected again goes on counting where
    it was. *)
Theorem operations_keep_configuration self method params :
  let config s := (transport s, command s, http_url s, timeout s, _lock s) in
  (config (snd (connect self)) = config self /\
   request_id (snd (connect self)) = request_id self) /\
  (config (snd (disconnect self)) = config self /\
   request_id (snd (disconnect self)) = request_id self) /\
  config (snd (_send_request method params self)) = config self.
Proof.
  intros config. unfold config. repeat split.
  - destruct (String.eqb (transport self) "stdio") eqn:Ht.
    + pose proof (transport_is _ _ Ht) as Ht'.
      destruct (process self) as [p|] eqn:Hp.
      * unfold connect. unfold_m. rewrite Ht, Hp. reflexivity.
      * rewrite (connect_unfold _ Ht' Hp). cbv zeta.
        destruct (spawn (command self)) as [p|]; [|reflexivity].
        destruct (stdin_broken _); [reflexivity|].
        destruct (read_loop (stdout p)) as [[[response|e] rest] evs];
          [|reflexivity].
        destruct (py_in "error" response) as [[|]|e]; try reflexivity.
        destruct (py_getitem response "error"); reflexivity.
    + unfold connect, health_probe. unfold_m. rewrite Ht.
      destruct (String.eqb (transport self) "http"); reflexivity.
  - destruct (String.eqb (transport self) "stdio") eqn:Ht.
    + pose proof (transport_is _ _ Ht) as Ht'.
      destruct (process self) as [p|] eqn:Hp.
      * unfold connect. unfold_m. rewrite Ht, Hp. reflexivity.
      * rewrite (connect_unfold _ Ht' Hp). cbv zeta.
        destruct (spawn (command self)) as [p|]; [|reflexivity].
        destruct (stdin_broken _); [reflexivity|].
        destruct (read_loop (stdout p)) as [[[response|e] rest] evs];
          [|reflexivity].
        destruct (py_in "error" response) as [[|]|e]; try reflexivity.
        destruct (py_getitem response "error"); reflexivity.
    + unfold connect, health_probe. unfold_m. rewrite Ht.
      destruct (String.eqb (transport self) "http"); reflexivity.
  - unfold disconnect, Popen_wait. unfold_m.
    destruct (process self) as [p|] eqn:Hp; simpl; rewrite ?Hp; simpl; [|done].
    destruct (exits_on_terminate p); done.
  - unfold disconnect, Popen_wait. unfold_m.
    destruct (process self) as [p|] eqn:Hp; simpl; rewrite ?Hp; simpl; [|done].
    destruct (exits_on_terminate p); done.
  - unfold _send_request. unfold_m.
    destruct (String.eqb (transport self) "stdio") eqn:Ht.
    + destruct (process self) as [p|] eqn:Hp.
      * rewrite (send_request_stdio_unfold _ _ _ _ Hp). simpl.
        destruct (stdin_broken (trace self)); [reflexivity|].
        destruct (read_loop (stdout p)) as [[r rest] evs]. reflexivity.
      * unfold _send_request_stdio. unfold_m. rewrite Hp. reflexivity.
    + destruct (String.eqb (transport self) "http").
      * rewrite send_request_http_unfold. reflexivity.
      * reflexivity.
Qed.

(** ** What the reader consumes *)

(** When [_read_next_json_message] returns a message, the output it went
    through is some lines that were passed over (blank once stripped, or
    rejected by [json.loads] as not being JSON) and then the line the
    message was parsed from; what came after that line is left for the
    next read. *)
Theorem read_returns_first_message out v rest evs :
  read_loop out = (Ok v, rest, evs) ->
  exists noise line,
    out = noise ++ line :: rest /\
    json_loads (strip line) = Ok v /\ strip line <> "" /\
    Forall (fun l => strip l = "" \/ not_json (strip l) = true) noise.
Proof.
  revert evs. induction out as [|l out IH]; intros evs Hread; simpl in Hread.
  - discriminate.
  - destruct (str_empty l); [discriminate|].
    unfold decode in Hread. destruct (utf8_valid l); [|discriminate].
    destruct (str_empty (strip l)) eqn:Hblank.
    + destruct (read_loop out) as [[r rest'] evs'] eqn:Hout.
      injection Hread as -> -> _.
      destruct (IH _ eq_refl) as (noise & line & -> & Hv & Hne & Hnoise).
      exists (l :: noise), line. split; [done|]. split; [done|]. split; [done|].
      constructor; [|done]. left. by apply str_empty_true.
    + destruct (json_loads (strip l)) as [v'|e] eqn:Hj.
      * injection Hread as -> -> _. exists [], l.
        split; [done|]. split; [done|]. split; [|constructor].
        intros E. rewrite E in Hblank. discriminate.
      * destruct (is_decode_error e) eqn:He; [|discriminate].
        destruct (read_loop out) as [[r rest'] evs'] eqn:Hout.
        injection Hread as -> -> _.
        destruct (IH _ eq_refl) as (noise & line & -> & Hv & Hne & Hnoise).
        exists (l :: noise), line. split; [done|]. split; [done|].
        split; [done|]. constructor; [|done]. right.
        unfold not_json. by rewrite Hj.
Qed.

(** What is printed as ignored server output is never a message and never
    blank: each text reported was rejected by [json.loads] as not being
    JSON. *)
Theorem ignored_output_is_not_a_message out :
  Forall (fun ev => match ev with
                    | Stderr text => text <> "" /\ not_json text = true
                    | _ => True
                    end) (read_loop out).2.
Proof.
  induction out as [|line out IH]; simpl.
  - repeat constructor.
  - destruct (str_empty line); [repeat constructor|].
    destruct (decode line) as [text|e] eqn:Hd; [|repeat constructor].
    destruct (str_empty (strip text)) eqn:Hblank.
    + destruct (read_loop out) as [[r rest] evs]. by constructor.
    + destruct (json_loads (strip text)) as [v|e] eqn:Hj;
        [repeat constructor|].
      destruct (is_decode_error e) eqn:He; [|repeat constructor].
      destruct (read_loop out) as [[r rest] evs]. simpl in *.
      constructor; [done|]. constructor; [|done]. split.
      * intros E. rewrite E in Hblank. discriminate.
      * unfold not_json. by rewrite Hj.
Qed.

End ClientProperties.

(** * Properties of the browser singleton *)

Section BrowserProperties.
Import Browser.
Context `{Site}.

Implicit Types (g : Globals) (h : list event).

Ltac unfold_b :=
  unfold ensure_authenticated, validate_session, get_or_create_browser,
         try_session_file, try_cookie, _apply_browser_settings,
         page_route, page_set_default_timeout, update_browser, the_browser,
         session_path_exists, get_linkedin_cookie, is_logged_in, call,
         mbind, mret, M_bind, M_ret, get, modify, raise, lift, try_except.

(** Once a browser exists no credential is looked up again:
    [ensure_authenticated] only asks whether the page is logged in. *)
Lemma existing_browser_is_reused g b :
  _browser g = Some b ->
  ensure_authenticated g =
    (if logged_in (trace g)
     then Ok tt
     else Raise (Exn AuthenticationError (MLit "Session expired or invalid.")),
     log IsLoggedIn g).
Proof.
  intros Hb. unfold_b. simpl. rewrite Hb. simpl.
  destruct (logged_in (trace g)); reflexivity.
Qed.


(** When the resolution fails the browser that was started stays in
    [_browser]; a later call finds it and, by [existing_browser_is_reused],
    resolves nothing. *)
Lemma failed_resolution_keeps_browser g :
  _browser g = None ->
  (forall h ev, fails h ev = false) ->
  (forall h, path_exists h DEFAULT_SESSION_PATH = Ok false) ->
  (forall h, linkedin_cookie h = Ok None) ->
  _browser (snd (ensure_authenticated g))
    = Some {| headless := _headless g; default_timeout := None;
              blocking := false |}.
Proof.
  intros Hfresh Hfails Hpath Hcookie.
  unfold_b. simpl. rewrite Hfresh. simpl.
  rewrite !Hfails. simpl. rewrite Hpath. simpl.
  rewrite Hcookie. reflexivity.
Qed.

(** The fallback: a session file that loads but is no longer logged in is
    followed by the cookie. *)
Lemma expired_session_falls_back_to_cookie g c :
  _browser g = None ->
  (forall h ev, fails h ev = false) ->
  (forall h, path_exists h DEFAULT_SESSION_PATH = Ok true) ->
  (forall h, linkedin_cookie h = Ok (Some c)) -> c <> "" ->
  (forall h, In (LoginWithCookie c) h -> logged_in h = true) ->
  (forall h, ~ In (LoginWithCookie c) h -> logged_in h = false) ->
  ~ In (LoginWithCookie c) (trace g) ->
  let '(r, g') := ensure_authenticated g in
  r = Ok tt /\
  trace g' = trace g ++
             [Start (_headless g); PathExists DEFAULT_SESSION_PATH;
              LoadSession DEFAULT_SESSION_PATH; Route;
              SetDefaultTimeout 120000;
              Goto "https://www.linkedin.com/feed/"; IsLoggedIn;
              GetCookie; Route; SetDefaultTimeout 120000;
              LoginWithCookie c;
              SetDefaultTimeout config_default_timeout; IsLoggedIn].
Proof.
  intros Hfresh Hfails Hpath Hcookie Hc Hvalid Hinvalid Hnew.
  unfold_b. simpl. rewrite Hfresh. simpl.
  rewrite !Hfails. simpl. rewrite Hpath. simpl.
  rewrite !Hfails. simpl.
  rewrite Hinvalid
    by (rewrite !in_app_iff; simpl; intuition discriminate).
  simpl. rewrite Hcookie. simpl. rewrite (str_empty_false _ Hc). simpl.
  rewrite !Hfails. simpl.
  rewrite Hvalid by (rewrite !in_app_iff; simpl; tauto). simpl.
  split; [reflexivity|]. rewrite <- !app_assoc. reflexivity.
Qed.

(** ** Creating and closing the browser *)

Ltac browser_cases :=
  repeat first
    [ progress (simpl; rewrite ?every_class_is_an_exception)
    | match goal with
      | |- context [fails ?h ?ev] => destruct (fails h ev) eqn:?
      | |- context [path_exists ?h ?p] =>
          destruct (path_exists h p) as [[|]|?] eqn:?
      | |- context [logged_in ?h] => destruct (logged_in h) eqn:?
      | |- context [linkedin_cookie ?h] =>
          destruct (linkedin_cookie h) as [[?c|]|?] eqn:?
      | |- context [str_empty ?c] => destruct (str_empty c) eqn:?
      end ].

(** A browser handed out by a creation is the one kept in [_browser], and
    it is set up: the resource-blocking route is installed and the default
    time-out is the configured one (not the 120 s used while logging in);
    it was started with the headless flag given, or the module's flag when
    none was given. *)
Theorem created_browser_is_configured g flag session_path b g' :
  _browser g = None ->
  get_or_create_browser flag session_path g = (Ok b, g') ->
  _browser g' = Some b /\
  b = {| headless := default (_headless g) flag;
         default_timeout := Some config_default_timeout;
         blocking := true |}.
Proof.
  intros Hfresh. unfold_b.
  destruct flag as [flag|]; simpl; rewrite Hfresh; simpl;
    browser_cases; intros Hr; inversion Hr; subst; simpl; done.
Qed.

(** What a creation can raise.  Whatever fails while the session file is
    loaded or the cookie is applied is swallowed by the two
    [except Exception] clauses, and the creation then ends in
    [AuthenticationError], "No authentication found".  Three calls stand
    outside those clauses and their exceptions get out as they are:
    [_browser.start()], [session_path.exists()] and
    [get_linkedin_cookie()].  Nothing else is raised, and in every case the
    browser object made at the start stays in [_browser]. *)
Theorem creation_raises_only_authentication_error g flag session_path :
  _browser g = None ->
  let start := Start (default (_headless g) flag) in
  let path := default DEFAULT_SESSION_PATH session_path in
  match get_or_create_browser flag session_path g with
  | (Ok _, _) => fails (trace g) start = false
  | (Raise e, g') =>
      _browser g' <> None /\
      if fails (trace g) start then exn_cls e = PlaywrightError
      else
        e = Exn AuthenticationError
                (MLit "No authentication found. Run with --get-session to create a session.")
        \/ path_exists (trace g ++ [start]) path = Raise e
        \/ exists h, linkedin_cookie h = Raise e
  end.
Proof.
  intros Hfresh. unfold_b.
  destruct flag as [flag|]; simpl; rewrite Hfresh; simpl;
    browser_cases; (try done);
    (split; [done|]); eauto.
Qed.

(** [close_browser()] closes the browser and forgets it, after which a
    second call does nothing; when the close itself raises, the exception
    gets out and the browser stays in [_browser]. *)
Theorem close_browser_forgets g b :
  _browser g = Some b ->
  let '(r, g1) := close_browser g in
  trace g1 = trace g ++ [Close] /\
  if fails (trace g) Close
  then raises r PlaywrightError /\ _browser g1 = Some b
  else r = Ok tt /\ _browser g1 = None /\ close_browser g1 = (Ok tt, g1).
Proof.
  intros Hb. unfold close_browser, call.
  unfold mbind, mret, M_bind, M_ret, get, modify. rewrite Hb.
  destruct (fails (trace g) Close); simpl; done.
Qed.

(** Closing makes room for a new resolution: on a site where no call fails
    and a session file validates, [ensure_authenticated] after
    [close_browser()] starts a browser again and loads the session
    again. *)
Theorem close_then_authenticate g b :
  _browser g = Some b ->
  (forall h ev, fails h ev = false) ->
  (forall h, path_exists h DEFAULT_SESSION_PATH = Ok true) ->
  (forall h, In (LoadSession DEFAULT_SESSION_PATH) h -> logged_in h = true) ->
  let '(r, g') := (close_browser;; ensure_authenticated) g in
  r = Ok tt /\
  trace g' = trace g ++
             [Close; Start (_headless g); PathExists DEFAULT_SESSION_PATH;
              LoadSession DEFAULT_SESSION_PATH; Route;
              SetDefaultTimeout 120000;
              Goto "https://www.linkedin.com/feed/"; IsLoggedIn;
              SetDefaultTimeout config_default_timeout; IsLoggedIn].
Proof.
  intros Hb Hfails Hpath Hvalid.
  unfold close_browser. unfold_b. simpl. rewrite Hb. simpl.
  rewrite !Hfails. simpl.
  rewrite !Hfails. simpl. rewrite Hpath. simpl.
  rewrite !Hfails. simpl.
  rewrite Hvalid by (rewrite !in_app_iff; simpl; tauto). simpl.
  rewrite !Hfails. simpl.
  rewrite Hvalid by (rewrite !in_app_iff; simpl; tauto). simpl.
  split; [reflexivity|]. rewrite <- !app_assoc. reflexivity.
Qed.

(** A failed resolution is not tried again.  When neither source is there,
    [ensure_authenticated] raises and leaves the started browser in
    [_browser]; the next call finds it and only asks whether the page is
    logged in, so a cookie supplied in between is not picked up: no file
    is looked for and no cookie is read. *)
Theorem failed_resolution_is_not_retried g :
  _browser g = None ->
  (forall h ev, fails h ev = false) ->
  (forall h, path_exists h DEFAULT_SESSION_PATH = Ok false) ->
  linkedin_cookie (trace g ++ [Start (_headless g);
                               PathExists DEFAULT_SESSION_PATH]) = Ok None ->
  let '(r1, g1) := ensure_authenticated g in
  let '(r2, g2) := ensure_authenticated g1 in
  raises r1 AuthenticationError /\
  trace g2 = trace g1 ++ [IsLoggedIn] /\
  (logged_in (trace g1) = false -> raises r2 AuthenticationError).
Proof.
  intros Hfresh Hfails Hpath Hcookie.
  unfold_b. simpl. rewrite Hfresh. simpl.
  rewrite !Hfails. simpl. rewrite Hpath. simpl.
  rewrite <- app_assoc. simpl. rewrite Hcookie. simpl.
  destruct (logged_in _); simpl; (split; [reflexivity|]);
    (split; [reflexivity|]); [discriminate|reflexivity].
Qed.

(** What a creation returns is what [_browser] holds afterwards, whether
    the browser was there already or not. *)
Lemma get_or_create_returns_singleton g flag session_path b g' :
  get_or_create_browser flag session_path g = (Ok b, g') ->
  _browser g' = Some b.
Proof.
  unfold_b. destruct (_browser g) as [b0|] eqn:Hb.
  - destruct flag as [flag|]; simpl; rewrite Hb; simpl;
      intros Hr; inversion Hr; subst; simpl; done.
  - destruct flag as [flag|]; simpl; rewrite Hb; simpl;
      browser_cases; intros Hr; inversion Hr; subst; simpl; done.
Qed.

(** After a successful [ensure_authenticated] the browser is there, and
    asking for it again changes nothing. *)
Lemma authenticated_has_browser g g1 :
  ensure_authenticated g = (Ok tt, g1) ->
  exists b, get_or_create_browser None None g1 = (Ok b, g1).
Proof.
  unfold ensure_authenticated, validate_session, is_logged_in.
  unfold mbind, mret, M_bind, M_ret, raise.
  destruct (get_or_create_browser None None g) as [[b|e] g0] eqn:Hg;
    [|discriminate].
  apply get_or_create_returns_singleton in Hg.
  destruct (logged_in (trace g0)); simpl; [|discriminate].
  intros [= <-]. exists b.
  unfold get_or_create_browser. unfold mbind, mret, M_bind, M_ret, get.
  simpl. rewrite Hg. reflexivity.
Qed.

End BrowserProperties.

(** * Properties of the job tools *)

Section JobToolsProperties.
Import Browser JobTools.
Context `{Site} `{Scraper}.

Implicit Types (st : ToolState) (data : gmap string json).

(** The key normalization: afterwards ["title"] is the old ["title"] if
    there was one and else the ["job_title"], every other key is as it was,
    and normalizing twice is the same as once. *)
Theorem normalize_title_spec data :
  normalize_title data !! "title"
    = match data !! "title" with
      | Some title => Some title
      | None => data !! "job_title"
      end /\
  (forall key, key <> "title" -> normalize_title data !! key = data !! key) /\
  normalize_title (normalize_title data) = normalize_title data.
Proof.
  unfold normalize_title.
  destruct (data !! "title") as [title|] eqn:Ht.
  - rewrite (bool_decide_eq_true_2 (is_Some (Some title))) by eauto. simpl.
    rewrite Ht. rewrite (bool_decide_eq_true_2 (is_Some (Some title))) by eauto.
    simpl. done.
  - rewrite (bool_decide_eq_false_2 (is_Some None)) by (intros [x Hx]; done).
    simpl. destruct (data !! "job_title") as [job_title|] eqn:Hj.
    + rewrite (bool_decide_eq_true_2 (is_Some (Some job_title))) by eauto.
      simpl. rewrite lookup_insert_eq.
      rewrite (bool_decide_eq_true_2 (is_Some (Some job_title))) by eauto.
      simpl. split; [done|]. split; [|done].
      intros key Hkey. by rewrite lookup_insert_ne.
    + rewrite (bool_decide_eq_false_2 (is_Some None)) by (intros [x Hx]; done).
      simpl. rewrite Ht, Hj.
      rewrite (bool_decide_eq_false_2 (is_Some None)) by (intros [x Hx]; done).
      done.
Qed.

(** [get_job_details] never raises (the error handler is taken to return),
    and it scrapes only after the login check: when [ensure_authenticated] raises, no scraper is called and the
    answer is what the error handler makes of the exception; otherwise the
    page [https://www.linkedin.com/jobs/view/<job_id>/] is scraped once, and
    the answer is the scraped data with the title normalized, or the error
    handler's answer when the scraper raised. *)
Theorem job_details_outcome job_id st :
  let job_url := "https://www.linkedin.com/jobs/view/" +:+ job_id +:+ "/" in
  get_job_details job_id st =
    match ensure_authenticated (globals st) with
    | (Raise e, g1) =>
        (Ok (handle_tool_error e "get_job_details"),
         {| globals := g1; visits := visits st |})
    | (Ok _, g1) =>
        (match scrape (trace g1) (visits st) job_url with
         | Ok data => Ok (JDict (normalize_title data))
         | Raise e => Ok (handle_tool_error e "get_job_details")
         end,
         {| globals := g1; visits := visits st ++ [Scrape job_url] |})
    end.
Proof.
  intros job_url. unfold get_job_details. rewrite try_except_Exception.
  unfold in_browser, visiting. unfold mbind, mret, M_bind, M_ret.
  destruct (ensure_authenticated (globals st)) as [[[]|e] g1] eqn:Ha;
    simpl; [|reflexivity].
  destruct (authenticated_has_browser _ _ Ha) as [b ->]. simpl.
  fold job_url.
  destruct (scrape (trace g1) (visits st) job_url); reflexivity.
Qed.

(** [search_jobs] never raises (the error handler is taken to return) and
    searches only after the login check.
    A search that finds something answers with the URLs and their number.
    A search that finds nothing reads the page's title and content for the
    log before it answers with an empty list and a count of 0, so a failure
    of either read turns the empty result into the error handler's
    answer. *)
Theorem search_jobs_outcome keywords location limit st :
  search_jobs keywords location limit st =
    match ensure_authenticated (globals st) with
    | (Raise e, g1) =>
        (Ok (handle_tool_error e "search_jobs"),
         {| globals := g1; visits := visits st |})
    | (Ok _, g1) =>
        let searched := visits st ++ [Search keywords location limit] in
        let answer job_urls :=
          Ok (JDict {[ "job_urls" := JList job_urls;
                       "count" := JInt (Z.of_nat (length job_urls)) ]}) in
        let failed e := Ok (handle_tool_error e "search_jobs") in
        match search (trace g1) (visits st) keywords location limit with
        | Raise e => (failed e, {| globals := g1; visits := searched |})
        | Ok (url :: urls) =>
            (answer (url :: urls), {| globals := g1; visits := searched |})
        | Ok [] =>
            match page_title (trace g1) searched with
            | Raise e =>
                (failed e,
                 {| globals := g1; visits := searched ++ [PageTitle] |})
            | Ok _ =>
                (match page_content (trace g1) (searched ++ [PageTitle]) with
                 | Raise e => failed e
                 | Ok _ => answer []
                 end,
                 {| globals := g1;
                    visits := (searched ++ [PageTitle]) ++ [PageContent] |})
            end
        end
    end.
Proof.
  unfold search_jobs. rewrite try_except_Exception.
  unfold CustomJobSearchScraper_search, in_browser, visiting.
  unfold mbind, mret, M_bind, M_ret.
  destruct (ensure_authenticated (globals st)) as [[[]|e] g1] eqn:Ha;
    simpl; [|reflexivity].
  destruct (authenticated_has_browser _ _ Ha) as [b ->]. simpl.
  destruct (search (trace g1) (visits st) keywords location limit)
    as [[|url urls]|e]; simpl; try reflexivity.
  destruct (page_title _ _); simpl; [|reflexivity].
  destruct (page_content _ _); reflexivity.
Qed.

End JobToolsProperties.

(** * Properties of the command line *)

Section CliProperties.
Import Client Cli.
Context `{Runtime}.

(** How a one-shot command ends.  When [connect()] fails the program prints
    the connection error with the hint about the server and exits with
    status 1.  When the call succeeds its result is printed and the client
    is disconnected.  When the call raises one of the client's errors the
    command prints it and exits with status 1 from inside its handler, and
    any other exception leaves [run()] uncaught; either way
    [disconnect()] is not reached and the client stays as the call left it.
    The hint about creating a session is never printed, whatever the
    error. *)
Theorem run_outcome (call : M LinkedInMCPClient json) st :
  run (cmd call) st =
    match connect (client st) with
    | (Raise e, self1) =>
        (Exits 1,
         {| client := self1;
            screen := screen st ++ [Error "Connection error: " e; ServerHint] |})
    | (Ok _, self1) =>
        match call self1 with
        | (Ok result, self2) =>
            (Returns tt,
             {| client := snd (disconnect self2);
                screen := screen st ++ [Json result] |})
        | (Raise e, self2) =>
            if issubclass (exn_cls e) LinkedInMCPError
            then (Exits 1,
                  {| client := self2;
                     screen := screen st ++ [Error "Error: " e] |})
            else (Raises e, {| client := self2; screen := screen st |})
        end
    end.
Proof.
  unfold run, cmd, try_, then_, on_client, print, sys_exit.
  pose proof (connect_ok_or_wrapped (client st)) as Hc.
  destruct (connect (client st)) as [[[]|e] self1]; simpl in *.
  - destruct (call self1) as [[result|e] self2]; simpl.
    + pose proof (disconnect_clears self2) as [Hd _].
      destruct (disconnect self2) as [[[]|e] self3]; simpl in *;
        [reflexivity|discriminate].
    + destruct (issubclass (exn_cls e) LinkedInMCPError) eqn:He; simpl;
        [reflexivity|].
      assert (issubclass (exn_cls e) LinkedInMCPConnectionError = false
              /\ issubclass (exn_cls e) LinkedInMCPAuthenticationError = false)
        as [-> ->]; [|rewrite He; reflexivity].
      destruct (exn_cls e); try discriminate; done.
  - destruct Hc as [Hc|Hc]; [discriminate|]. rewrite Hc. simpl.
    rewrite <- app_assoc. reflexivity.
Qed.

End CliProperties.

(** * Properties of the search workflow *)

Section BackendProperties.
Import Backend.
Context `{Session}.

(** A job that [get_details] returns has a ["url"]. *)
Lemma get_details_has_url url details :
  get_details url = Some details -> is_Some (details !! "url").
Proof.
  unfold get_details.
  destruct (search_view_id url) as [[job_id|]|]; try discriminate.
  destruct (str_empty job_id); [discriminate|].
  destruct (call_tool _ _) as [[|[text|type] blocks]|]; try discriminate.
  destruct (safe_parse_json text) as [| | | | |d]; try discriminate.
  intros [= <-]. destruct (bool_decide (is_Some (d !! "url"))) eqn:Hu.
  - by apply bool_decide_eq_true_1 in Hu.
  - rewrite lookup_insert_eq. eauto.
Qed.

Lemma slice_to_length {A} (l : list A) stop :
  0 <= stop -> (length (slice_to l stop) <= Z.to_nat stop)%nat.
Proof.
  intros Hstop. unfold slice_to.
  destruct (Z.leb_spec 0 stop); [|lia].
  rewrite length_take. lia.
Qed.

Lemma omap_length {A B} (f : A -> option B) (l : list A) :
  (length (omap f l) <= length l)%nat.
Proof.
  induction l as [|a l IH]; [reflexivity|].
  change (a :: l) with ([a] ++ l). rewrite omap_app, length_app.
  assert (length (omap f [a]) <= 1)%nat as Hone
    by (unfold omap; simpl; destruct (f a); simpl; lia).
  change (length ([a] ++ l)) with (S (length l)). lia.
Qed.

(** What [search_jobs] returns: every job is an object with a ["url"]
    member (the one the server gave, or the URL the job was found under),
    and for a limit that is not negative there are at most [limit] jobs. *)
Theorem search_jobs_results keyword limit location time_posted :
  let '(jobs, debug_info) := search_jobs keyword limit location time_posted in
  Forall (fun job => exists details,
            job = JDict details /\ is_Some (details !! "url")) jobs /\
  (0 <= limit -> (length jobs <= Z.to_nat limit)%nat).
Proof.
  unfold search_jobs.
  destruct (call_tool "search_jobs" _) as [blocks|e];
    [|split; [constructor|simpl; lia]].
  destruct (collect_all ([], JDict ∅) blocks) as [[job_urls debug_info]|e];
    [|split; [constructor|simpl; lia]].
  destruct job_urls as [|url job_urls]; [split; [constructor|simpl; lia]|].
  split.
  - apply list.Forall_forall. intros job Hjob.
    apply list_elem_of_omap in Hjob as (o & Ho & Hjob).
    destruct o as [details|]; [|discriminate]. injection Hjob as <-.
    apply list_elem_of_In, in_map_iff in Ho as (u & Hd & _).
    exists details. split; [reflexivity|].
    by apply (get_details_has_url u).
  - intros Hlimit.
    etransitivity; [apply omap_length|].
    rewrite length_map. by apply slice_to_length.
Qed.

Lemma search_all_app keywords limit location time_posted : forall acc,
  search_all keywords limit location time_posted acc =
    acc ++ flat_map
             (fun keyword =>
                [JList (search_jobs keyword limit location time_posted).1;
                 (search_jobs keyword limit location time_posted).2])
             keywords.
Proof.
  induction keywords as [|k ks IH]; intros acc; simpl.
  - by rewrite app_nil_r.
  - destruct (search_jobs k limit location time_posted) as [jobs info].
    rewrite IH, <- app_assoc. reflexivity.
Qed.

(** [POST /search] once the session is open: [search_jobs] returns a pair
    and the endpoint extends its list with the pair, so ["jobs"] holds, for
    each keyword in order, the list of jobs and then the debug information,
    and ["count"] is twice the number of keywords, whatever the searches
    found. *)
Theorem search_endpoint_count keywords location limit time_posted :
  session_fails = None ->
  search_endpoint keywords location limit time_posted =
    Respond
      (JDict {[ "status" := JStr "success";
                "count" := JInt (2 * Z.of_nat (length keywords));
                "jobs" :=
                  JList (flat_map
                    (fun keyword =>
                       [JList (search_jobs keyword limit location
                                           time_posted).1;
                        (search_jobs keyword limit location time_posted).2])
                    keywords) ]}).
Proof.
  intros Hopen. unfold search_endpoint. rewrite Hopen, search_all_app.
  simpl. do 4 f_equal. f_equal.
  induction keywords as [|k ks IH]; simpl; lia.
Qed.

End BackendProperties.

(** * Properties of the URL handling *)

Section UtilsProperties.
Import Utils.

Implicit Types (sep s url : string).

Lemma append_cons c (a b : string) : String c a +:+ b = String c (a +:+ b).
Proof. reflexivity. Qed.

Lemma append_empty (b : string) : "" +:+ b = b.
Proof. reflexivity. Qed.

Lemma append_empty_r (a : string) : a +:+ "" = a.
Proof. induction a as [|c a IH]; [reflexivity|]. by rewrite ?append_cons, IH. Qed.

Lemma append_inj sep x y : sep +:+ x = sep +:+ y -> x = y.
Proof.
  induction sep as [|c sep IH]; [done|].
  rewrite !append_cons. intros [= E]. auto.
Qed.

Lemma length_append (a b : string) :
  String.length (a +:+ b) = (String.length a + String.length b)%nat.
Proof.
  induction a as [|c a IH]; [reflexivity|].
  rewrite ?append_cons. simpl. by rewrite IH.
Qed.

Lemma length_zero s : String.length s = O -> s = "".
Proof. destruct s; [reflexivity|discriminate]. Qed.

Lemma substring_all s : String.substring 0 (String.length s) s = s.
Proof. induction s as [|c s IH]; simpl; [reflexivity|]. by rewrite IH. Qed.

(** A string that starts with [sep] is [sep] followed by what
    [find_from] keeps as the rest. *)
Lemma prefix_drop sep : forall s,
  String.prefix sep s = true ->
  s = sep +:+ String.substring (String.length sep)
                (String.length s - String.length sep) s.
Proof.
  induction sep as [|a sep IH]; intros s Hs.
  - rewrite append_empty. simpl. rewrite Nat.sub_0_r. symmetry.
    apply substring_all.
  - destruct s as [|b s]; simpl in Hs; [discriminate|].
    destruct (ascii_dec a b) as [->|]; [|discriminate].
    rewrite ?append_cons. simpl. f_equal. apply IH, Hs.
Qed.

Lemma prefix_app sep : forall x y,
  String.prefix sep x = true -> String.prefix sep (x +:+ y) = true.
Proof.
  induction sep as [|a sep IH]; intros x y Hx;
    [destruct (x +:+ y); reflexivity|].
  destruct x as [|b x]; simpl in *; [discriminate|].
  rewrite ?append_cons. simpl.
  destruct (ascii_dec a b); [by apply IH|discriminate].
Qed.

Lemma prefix_self sep y : String.prefix sep (sep +:+ y) = true.
Proof.
  induction sep as [|a sep IH]; [destruct y; reflexivity|].
  rewrite ?append_cons. simpl.
  destruct (ascii_dec a a); [exact IH|congruence].
Qed.

(** [find_from] cuts the string at an occurrence of the separator ... *)
Lemma find_from_Some sep : forall s before after,
  find_from sep s = Some (before, after) -> s = before +:+ sep +:+ after.
Proof.
  intros s. induction s as [|c s IH]; intros before after; cbn [find_from].
  - destruct (String.prefix sep "") eqn:Hp; [|discriminate].
    intros [= <- <-]. rewrite append_empty. by apply prefix_drop.
  - destruct (String.prefix sep (String c s)) eqn:Hp.
    + intros [= <- <-]. rewrite append_empty. by apply prefix_drop in Hp.
    + destruct (find_from sep s) as [[b a]|]; [|discriminate].
      intros [= <- <-]. rewrite append_cons. f_equal. by apply IH.
Qed.

(** ... fails exactly when there is none ... *)
Lemma find_from_None sep : forall s,
  find_from sep s = None <-> str_contains sep s = false.
Proof.
  intros s. induction s as [|c s IH]; cbn [find_from str_contains].
  - destruct (String.prefix sep ""); simpl; split; congruence.
  - destruct (String.prefix sep (String c s)); simpl; [split; congruence|].
    rewrite <- IH. destruct (find_from sep s) as [[b a]|]; split; congruence.
Qed.

(** ... and takes the first one: the text before it has no occurrence. *)
Lemma find_from_before sep : sep <> "" -> forall s before after,
  find_from sep s = Some (before, after) -> str_contains sep before = false.
Proof.
  intros Hsep s. induction s as [|c s IH]; intros before after;
    cbn [find_from].
  - destruct (String.prefix sep "") eqn:Hp; [|discriminate].
    destruct sep; [congruence|discriminate].
  - destruct (String.prefix sep (String c s)) eqn:Hp.
    + intros [= <- <-]. destruct sep; [congruence|reflexivity].
    + destruct (find_from sep s) as [[b a]|] eqn:Hf; [|discriminate].
      intros [= <- <-]. cbn [str_contains].
      rewrite (IH _ _ eq_refl), orb_false_r.
      destruct (String.prefix sep (String c b)) eqn:Hb; [|reflexivity].
      apply (prefix_app _ _ (sep +:+ a)) in Hb.
      apply find_from_Some in Hf. rewrite append_cons, <- Hf in Hb.
      congruence.
Qed.

(** The first piece of a split is the whole string or the text before the
    first separator; either way the separator does not occur in it. *)
Lemma split_upto_head fuel sep s :
  sep <> "" -> (fuel = O -> s = "") ->
  exists x, split_upto fuel sep s !! 0%nat = Some x /\
            str_contains sep x = false.
Proof.
  intros Hsep Hfuel. destruct fuel as [|fuel]; simpl.
  - rewrite Hfuel by reflexivity. exists "". split; [reflexivity|].
    simpl. destruct sep; [congruence|reflexivity].
  - destruct (find_from sep s) as [[b a]|] eqn:Hf; simpl.
    + exists b. split; [reflexivity|]. by eapply find_from_before.
    + exists s. split; [reflexivity|]. by apply find_from_None.
Qed.

(** The segment taken after a marker that occurs in the URL: the index is
    in range, and the segment has no slash. *)
Lemma segment_after_contains marker url :
  marker <> "" -> str_contains marker url = true ->
  exists name, segment_after marker url = Some name /\
               str_contains "/" name = false.
Proof.
  intros Hm Hc. unfold segment_after, py_split.
  destruct (find_from marker url) as [[b a]|] eqn:Hf.
  - pose proof (find_from_Some _ _ _ _ Hf) as Hurl.
    assert (exists f, String.length url = S f) as [f Hlen].
    { rewrite Hurl, !length_append. destruct marker; [congruence|].
      simpl. rewrite Nat.add_succ_r. eauto. }
    rewrite Hlen. simpl. rewrite Hf. simpl.
    assert (exists rest, split_upto f marker a !! 0%nat = Some rest)
      as [rest Hrest].
    { destruct f; simpl; [eauto|].
      destruct (find_from marker a) as [[b' a']|]; simpl; eauto. }
    rewrite Hrest.
    destruct (split_upto_head (String.length rest) "/" rest) as (x & Hx & Hno);
      [discriminate|apply length_zero|].
    exists x. done.
  - apply find_from_None in Hf. congruence.
Qed.

(** The name taken from a URL.  Taking it never fails.  When the URL
    contains [linkedin.com/company/] (for a person, [linkedin.com/in/]) the
    name has no slash in it; otherwise the URL itself is the name. *)
Theorem extracted_name url :
  (exists name,
     company_name_of url = Some name /\
     if str_contains "linkedin.com/company/" url
     then str_contains "/" name = false else name = url) /\
  (exists name,
     username_of url = Some name /\
     if str_contains "linkedin.com/in/" url
     then str_contains "/" name = false else name = url).
Proof.
  unfold company_name_of, username_of. split.
  - destruct (str_contains "linkedin.com/company/" url) eqn:Hc; [|eauto].
    apply segment_after_contains; [discriminate|exact Hc].
  - destruct (str_contains "linkedin.com/in/" url) eqn:Hc; [|eauto].
    apply segment_after_contains; [discriminate|exact Hc].
Qed.

(** Skipping a prefix in which the first character of the separator does
    not occur. *)
Lemma find_from_skip c0 sep' pre : forall s,
  str_contains (String c0 "") pre = false ->
  find_from (String c0 sep') (pre +:+ s) =
    match find_from (String c0 sep') s with
    | Some (before, after) => Some (pre +:+ before, after)
    | None => None
    end.
Proof.
  induction pre as [|c pre IH]; intros s Hpre.
  - rewrite append_empty.
    destruct (find_from (String c0 sep') s) as [[b a]|]; reflexivity.
  - simpl in Hpre. apply orb_false_iff in Hpre as [Hc Hpre].
    assert (c0 <> c) as Hne.
    { intros ->. simpl in Hc. destruct (ascii_dec c c); [|congruence].
      destruct pre; discriminate. }
    rewrite append_cons. cbn [find_from String.prefix].
    destruct (ascii_dec c0 c); [congruence|].
    rewrite (IH s Hpre).
    destruct (find_from (String c0 sep') s) as [[b a]|]; reflexivity.
Qed.

Lemma find_from_self sep rest :
  find_from sep (sep +:+ rest) = Some ("", rest).
Proof.
  pose proof (prefix_self sep rest) as Hp.
  pose proof (prefix_drop _ _ Hp) as Hd. apply append_inj in Hd.
  rewrite Hd at 2.
  destruct (sep +:+ rest) as [|c s]; cbn [find_from]; rewrite Hp; reflexivity.
Qed.

(** A canonical URL gives back the name it was built from. *)
Lemma segment_after_round_trip c0 marker' pre name tail :
  str_contains (String c0 "") pre = false ->
  str_contains "/" name = false ->
  tail = "" \/ (exists rest, tail = "/" +:+ rest) ->
  str_contains (String c0 marker') (name +:+ tail) = false ->
  let url := pre +:+ String c0 marker' +:+ name +:+ tail in
  str_contains (String c0 marker') url = true /\
  segment_after (String c0 marker') url = Some name.
Proof.
  intros Hpre Hname Htail Hfree url.
  assert (find_from (String c0 marker') url = Some (pre +:+ "", name +:+ tail))
    as Hf.
  { unfold url. rewrite (find_from_skip _ _ _ _ Hpre), find_from_self.
    reflexivity. }
  split.
  { destruct (str_contains (String c0 marker') url) eqn:Hc; [reflexivity|].
    apply find_from_None in Hc. congruence. }
  unfold segment_after, py_split.
  assert (exists f, String.length url = S f) as [f Hlen].
  { unfold url. rewrite !length_append. simpl. rewrite Nat.add_succ_r. eauto. }
  rewrite Hlen. simpl split_upto. rewrite Hf. simpl.
  assert (split_upto f (String c0 marker') (name +:+ tail) !! 0%nat
          = Some (name +:+ tail)) as ->.
  { apply find_from_None in Hfree. destruct f; simpl; [reflexivity|].
    rewrite Hfree. reflexivity. }
  destruct Htail as [->|[rest ->]].
  - rewrite append_empty_r. apply find_from_None in Hname.
    destruct (String.length name); simpl; [reflexivity|].
    rewrite Hname. reflexivity.
  - assert (find_from "/" (name +:+ "/" +:+ rest) = Some (name +:+ "", rest))
      as Hs.
    { rewrite (find_from_skip _ _ _ _ Hname).
      rewrite (find_from_self "/" rest). reflexivity. }
    assert (exists k, String.length (name +:+ "/" +:+ rest) = S k) as [k ->].
    { rewrite !length_append. simpl. rewrite Nat.add_succ_r. eauto. }
    simpl split_upto. rewrite Hs. simpl. by rewrite append_empty_r.
Qed.

(** Round trip.  A profile URL made of a host part without the letter l,
    the marker, a name without a slash, and then nothing or a slash and
    more, gives back the name, as long as the marker does not occur again
    in what follows it. *)
Theorem name_round_trip pre name tail :
  str_contains "l" pre = false ->
  str_contains "/" name = false ->
  tail = "" \/ (exists rest, tail = "/" +:+ rest) ->
  (str_contains "linkedin.com/company/" (name +:+ tail) = false ->
   company_name_of (pre +:+ "linkedin.com/company/" +:+ name +:+ tail)
     = Some name) /\
  (str_contains "linkedin.com/in/" (name +:+ tail) = false ->
   username_of (pre +:+ "linkedin.com/in/" +:+ name +:+ tail) = Some name).
Proof.
  intros Hpre Hname Htail. unfold company_name_of, username_of. split.
  - intros Hfree.
    destruct (segment_after_round_trip "l" "inkedin.com/company/"
                pre name tail Hpre Hname Htail Hfree) as [-> ->].
    reflexivity.
  - intros Hfree.
    destruct (segment_after_round_trip "l" "inkedin.com/in/"
                pre name tail Hpre Hname Htail Hfree) as [-> ->].
    reflexivity.
Qed.

End UtilsProperties.

(** * Properties of the profile endpoints *)

Section ProfileProperties.
Import Backend.
Context `{Session}.

(** What an endpoint answers on the data fetched. *)
Lemma respond_dict d not_found :
  respond (JDict d) not_found =
    Ok (JDict
          (if bool_decide (d = ∅)
           then {[ "success" := JBool false; "error" := JStr not_found ]}
           else match d !! "error" with
                | Some error =>
                    {[ "success" := JBool false;
                       "error" := default error (d !! "message") ]}
                | None => {[ "success" := JBool true; "data" := JDict d ]}
                end)).
Proof.
  unfold respond. simpl.
  destruct (bool_decide (d = ∅)); simpl; [reflexivity|].
  destruct (d !! "error") as [error|] eqn:He.
  - rewrite (bool_decide_eq_true_2 (is_Some (Some error))) by eauto.
    reflexivity.
  - rewrite (bool_decide_eq_false_2 (is_Some None)) by (intros [x Hx]; done).
    reflexivity.
Qed.

Lemma respond_other data not_found :
  match data with JDict _ => False | _ => True end ->
  match respond data not_found with
  | Ok body =>
      if py_truthy data
      then body = JDict {[ "success" := JBool true; "data" := data ]} /\
           py_in "error" data = Ok false
      else body = JDict {[ "success" := JBool false;
                           "error" := JStr not_found ]}
  | Raise e => py_truthy data = true /\ py_in "error" data <> Ok false
  end.
Proof.
  intros Hdata. unfold respond.
  destruct (py_truthy data) eqn:Ht; [|done].
  destruct (py_in "error" data) as [[|]|e] eqn:Hin; try done.
  destruct data; try done.
Qed.

(** [POST /api/company-profile] once the session is open.  Taking the
    company name from the URL never fails, and the tool is called with that
    name.  When the first content block parses to an object, the endpoint
    never answers 500: an empty object is "not found", an object with an
    ["error"] key is reported as a failure with its ["message"] (or else
    its ["error"]), any other object is the data of a success.  When there
    is no usable answer the endpoint answers "not found".  The status 500
    is left for a value that is truthy and not an object, and in which
    ["error"] cannot be looked for or is found. *)
Theorem company_profile_endpoint_outcome url :
  session_fails = None ->
  exists company_name,
    Utils.company_name_of url = Some company_name /\
    let data :=
      first_text_parsed
        (call_tool "get_company_profile"
           (JDict {[ "company_name" := JStr company_name ]})) in
    let not_found := "Company not found or no data returned" in
    match data with
    | JDict d =>
        company_profile_endpoint url =
          Respond (JDict
            (if bool_decide (d = ∅)
             then {[ "success" := JBool false; "error" := JStr not_found ]}
             else match d !! "error" with
                  | Some error =>
                      {[ "success" := JBool false;
                         "error" := default error (d !! "message") ]}
                  | None => {[ "success" := JBool true; "data" := data ]}
                  end))
    | _ =>
        match company_profile_endpoint url with
        | Respond body =>
            if py_truthy data
            then body = JDict {[ "success" := JBool true; "data" := data ]} /\
                 py_in "error" data = Ok false
            else body = JDict {[ "success" := JBool false;
                                 "error" := JStr not_found ]}
        | HTTPException status_code _ =>
            status_code = 500 /\
            py_truthy data = true /\ py_in "error" data <> Ok false
        end
    end.
Proof.
  intros Hopen.
  assert (exists name, Utils.company_name_of url = Some name) as [name Hname].
  { unfold Utils.company_name_of.
    destruct (str_contains "linkedin.com/company/" url) eqn:Hc; [|eauto].
    destruct (segment_after_contains "linkedin.com/company/" url)
      as (name & Hn & _); [discriminate|exact Hc|eauto]. }
  exists name. split; [exact Hname|].
  unfold company_profile_endpoint, profile_endpoint, get_company_profile.
  rewrite Hopen, Hname.
  remember (first_text_parsed _) as data eqn:Hdata. clear Hdata.
  pose proof (respond_other data "Company not found or no data returned")
    as Hother.
  destruct data as [| | | | |d];
    try (specialize (Hother I);
         destruct (respond _ _) as [body|e]; [exact Hother|];
         split; [reflexivity|exact Hother]).
  rewrite respond_dict. reflexivity.
Qed.

End ProfileProperties.

(** The stub server answers the first call with an authentication error. *)
Lemma error_code_mapping_witness :
  fst (Client._send_request (H := Stub.auth_server)
         "tools/list" (JDict ∅) (Stub.connected Stub.auth_server))
  = Raise (Exn LinkedInMCPAuthenticationError (MVal (JStr "login required"))).
Proof.
  exact (proj1
           (error_code_mapping (H := Stub.auth_server)
              (Stub.connected Stub.auth_server) "tools/list" (JDict ∅)
              {[ "jsonrpc" := JStr "2.0"; "id" := JInt 1;
                 "error" := JDict {[ "code" := JInt (-32000);
                                     "message" := JStr "login required" ]} ]}
              (or_introl
                 (ex_intro _ _ (ex_intro _ []
                    (ex_intro _ [Client.Read (Stub.auth_error_text +:+ Stub.nl)]
                       (conj eq_refl
                          (conj eq_refl (conj eq_refl eq_refl))))))))
           {[ "code" := JInt (-32000); "message" := JStr "login required" ]}
           eq_refl eq_refl).
Defined.

(** C2, as stated, fails: the server answers with ["error": null] next to
    the result.  The response has no error descriptor, and the call neither
    returns the result nor raises the tool error: on both transports it
    ends in [AttributeError]. *)
Lemma null_error_is_not_a_result :
  Client.json_loads (H := StubWorld.null_error_server) Stub.null_error_text
    = Ok Stub.null_error /\
  raises (fst (Client._send_request (H := StubWorld.null_error_server)
                 "tools/list" (JDict ∅)
                 (Stub.connected StubWorld.null_error_server)))
         AttributeError /\
  raises (fst (Client._send_request (H := StubWorld.null_error_endpoint)
                 "tools/list" (JDict ∅) Stub.http_client))
         AttributeError.
Proof. vm_compute. split; [reflexivity|split; reflexivity]. Qed.

(** The spec's scenario: the child prints ["debug: starting up"] and then
    the answer. *)
Lemma non_json_lines_discarded_witness :
  fst (Client._read_next_json_message (H := Stub.noisy_server)
         (Stub.connected Stub.noisy_server)) = Ok Stub.result_1 /\
  (Client.stdout <$>
     Client.process (snd (Client._read_next_json_message (H := Stub.noisy_server)
                            (Stub.connected Stub.noisy_server)))) = Some [] /\
  fst (Client._send_request_stdio (H := Stub.noisy_server)
         "tools/list" (JDict ∅) (Stub.connected Stub.noisy_server))
    = Client.response_outcome Stub.result_1 /\
  ~ raises (fst (Client._send_request_stdio (H := Stub.noisy_server)
                   "tools/list" (JDict ∅) (Stub.connected Stub.noisy_server)))
           JSONDecodeError.
Proof.
  apply (non_json_lines_discarded (H := Stub.noisy_server)
           (Stub.connected Stub.noisy_server)
           {| Client.stdout := [Stub.debug_text +:+ Stub.nl;
                                Stub.result_1_text +:+ Stub.nl];
              Client.exits_on_terminate := true |}
           [Stub.debug_text +:+ Stub.nl]
           (Stub.result_1_text +:+ Stub.nl) []).
  - reflexivity.
  - reflexivity.
  - reflexivity.
  - constructor; [|constructor].
    split; [discriminate|]. split; [reflexivity|]. right. reflexivity.
  - reflexivity.
  - vm_compute. discriminate.
  - reflexivity.
Defined.

(** C6 at two inputs.  The child prints a line that is not UTF-8, or an
    integer of 4301 digits, and then the answer: the call raises, and the
    answer is not returned. *)
Lemma non_json_line_raises_witness :
  raises (fst (Client._send_request_stdio (H := StubWorld.latin1_server)
                 "tools/list" (JDict ∅)
                 (Stub.connected StubWorld.latin1_server)))
         UnicodeDecodeError /\
  raises (fst (Client._send_request_stdio (H := StubWorld.digits_server)
                 "tools/list" (JDict ∅)
                 (Stub.connected StubWorld.digits_server)))
         ValueError.
Proof.
  split.
  - apply (proj1 (non_json_line_raises (H := StubWorld.latin1_server)
                    (Stub.connected StubWorld.latin1_server)
                    {| Client.stdout := [StubWorld.latin1_line;
                                         Stub.result_1_text +:+ Stub.nl];
                       Client.exits_on_terminate := true |}
                    [] StubWorld.latin1_line [Stub.result_1_text +:+ Stub.nl]
                    "tools/list" (JDict ∅)
                    eq_refl eq_refl eq_refl ltac:(constructor)
                    ltac:(discriminate))).
    reflexivity.
  - destruct (proj2 (non_json_line_raises (H := StubWorld.digits_server)
                       (Stub.connected StubWorld.digits_server)
                       {| Client.stdout :=
                            [StubWorld.digits +:+ Stub.nl;
                             Stub.result_1_text +:+ Stub.nl];
                          Client.exits_on_terminate := true |}
                       [] (StubWorld.digits +:+ Stub.nl)
                       [Stub.result_1_text +:+ Stub.nl]
                       "tools/list" (JDict ∅)
                       ltac:(vm_compute; reflexivity)
                       eq_refl
                       ltac:(vm_compute; reflexivity)
                       ltac:(constructor)
                       ltac:(vm_compute; discriminate))
                    (Exn ValueError
                         (MLit "Exceeds the limit (4300 digits) for integer string conversion"))
                    ltac:(vm_compute; reflexivity)
                    ltac:(vm_compute; discriminate)
                    ltac:(vm_compute; reflexivity)
                    eq_refl) as [_ ->].
    reflexivity.
Defined.

(** C1, as stated, fails: the server's only answer carries id 99, the call
    that sent id 1 returns its result and raises nothing. *)
Lemma response_id_not_checked :
  let self := Stub.connected Stub.stray_server in
  let '(r, self') :=
    Client._send_request_stdio (H := Stub.stray_server)
      "tools/list" (JDict ∅) self in
  Client.trace self' =
    Client.trace self
    ++ [Client.Write (Client.make_request 1 "tools/list" (JDict ∅));
        Client.Read (Stub.result_99_text +:+ Stub.nl)] /\
  Client.json_loads (H := Stub.stray_server) Stub.result_99_text
    = Ok Stub.result_99 /\
  Client.request_id_of Stub.result_99 = Some (JInt 99) /\
  r = Ok (JDict {[ "x" := JInt 1 ]}).
Proof. vm_compute. repeat split. Qed.

Lemma response_taken_by_position_witness :
  fst (Client._send_request_stdio (H := Stub.stray_server)
         "tools/list" (JDict ∅) (Stub.connected Stub.stray_server))
    = Client.response_outcome Stub.result_99.
Proof.
  exact (proj1
           (response_taken_by_position (H := Stub.stray_server)
              (Stub.connected Stub.stray_server)
              {| Client.stdout := [Stub.result_99_text +:+ Stub.nl];
                 Client.exits_on_terminate := true |}
              "tools/list" (JDict ∅) Stub.result_99 []
              [Client.Read (Stub.result_99_text +:+ Stub.nl)]
              eq_refl eq_refl)).
Defined.

Lemma handshake_id_reused_witness :
  let '(connected, self1) :=
    Client.connect (H := Stub.noisy_server) (Client.__init__ "stdio" None None 30) in
  let '(_, self2) :=
    Client._send_request (H := Stub.noisy_server) "tools/list" (JDict ∅) self1 in
  connected = Ok tt /\
  Client.request_id self1 = 0 /\
  Client.sent_ids (Client.trace self1) = [JInt 1] /\
  Client.sent_ids (Client.trace self2) = [JInt 1; JInt 1].
Proof.
  pose proof
    (handshake_id_reused (H := Stub.noisy_server)
       {| Client.stdout := map (fun t => t +:+ Stub.nl)
                             [Stub.init_ok_text; Stub.debug_text;
                              Stub.result_1_text];
          Client.exits_on_terminate := true |}
       {[ "jsonrpc" := JStr "2.0"; "id" := JInt 1; "result" := JDict ∅ ]}
       (map (fun t => t +:+ Stub.nl) [Stub.debug_text; Stub.result_1_text])
       [Client.Read (Stub.init_ok_text +:+ Stub.nl)]
       "tools/list" (JDict ∅) 30 eq_refl eq_refl eq_refl) as W.
  cbv zeta in W.
  destruct (Client.connect (H := Stub.noisy_server)
              (Client.__init__ "stdio" None None 30)) as [connected self1].
  destruct (Client._send_request (H := Stub.noisy_server)
              "tools/list" (JDict ∅) self1) as [r self2].
  destruct W as (Hconnected & Hcounter & Hfirst & Hsecond).
  split; [exact (Hconnected eq_refl eq_refl)|].
  split; [exact Hcounter|]. split; [exact Hfirst|exact Hsecond].
Defined.

(** An endpoint that answers 500. *)
Lemma http_status_error_escapes_witness :
  let r := fst (Client._send_request_http
                  (H := Stub.runtime [] (Client.HttpResponse 500 "Internal Server Error"))
                  "tools/list" (JDict ∅) Stub.http_client) in
  raises r HTTPStatusError /\ ~ raises r LinkedInMCPConnectionError.
Proof.
  apply (http_status_error_escapes
           (H := Stub.runtime [] (Client.HttpResponse 500 "Internal Server Error"))
           Stub.http_client "tools/list" (JDict ∅) 500 "Internal Server Error").
  - reflexivity.
  - lia.
Defined.

(** C9. Two calls started on one connected client, [tools/list] twice.
    After each has run to its first suspension both requests are on the
    wire, no answer has been read and the lock is free: two requests are in
    flight.  The server answers request 1 and then request 2; when the
    second task is resumed first it takes the answer to request 1, and the
    first task is left with the answer to request 2. *)
Theorem two_requests_in_flight :
  let self := Stub.connected Stub.ordered_server in
  let tasks := [Tasks.Created "tools/list" (JDict ∅);
                Tasks.Created "tools/list" (JDict ∅)] in
  let '(tasks1, self1) := Tasks.run (H := Stub.ordered_server) [0; 1]%nat tasks self in
  let '(tasks2, self2) := Tasks.run (H := Stub.ordered_server) [1; 0]%nat tasks1 self1 in
  Tasks.in_flight tasks1 = 2%nat /\
  Client._lock self1 = false /\
  Client.trace self1 =
    Client.trace self
    ++ [Client.Write (Client.make_request 1 "tools/list" (JDict ∅));
        Client.Write (Client.make_request 2 "tools/list" (JDict ∅))] /\
  tasks2 = [Tasks.Finished (Ok (JDict {[ "x" := JInt 2 ]}));
            Tasks.Finished (Ok (JDict {[ "tools" := JList [] ]}))].
Proof. vm_compute. repeat split. Qed.






(** * The remaining properties on the stub collaborators *)

(** A child that closes its output at once: [connect()] raises, the child
    stays. *)
Lemma failed_connect_keeps_process_witness :
  let self1 := snd (Client.connect (H := StubWorld.closing_server)
                      Stub.stdio_client) in
  Client.process self1 <> None /\
  Client.connect (H := StubWorld.closing_server) self1 = (Ok tt, self1) /\
  exists evs,
    Client.trace self1 = Client.trace Stub.stdio_client ++ evs /\
    Forall (fun ev => ev <> Client.Terminate /\ ev <> Client.Kill) evs.
Proof.
  apply (failed_connect_keeps_process (H := StubWorld.closing_server)
           Stub.stdio_client
           {| Client.stdout := []; Client.exits_on_terminate := true |}).
  - reflexivity.
  - reflexivity.
  - reflexivity.
  - vm_compute. discriminate.
Defined.

(** The handshake with the stub server that answers it. *)
Lemma handshake_order_witness :
  Client.trace (snd (Client.connect (H := Stub.noisy_server) Stub.stdio_client)) =
    [Client.Spawn (Client.command Stub.stdio_client);
     Client.Write Client.init_request;
     Client.Read (Stub.init_ok_text +:+ Stub.nl);
     Client.Write Client.initialized] /\
  (fst (Client.connect (H := Stub.noisy_server) Stub.stdio_client) = Ok tt
   <-> false = false /\ false = false /\ false = false).
Proof.
  exact (handshake_order (H := Stub.noisy_server) Stub.stdio_client
           {| Client.stdout := map (fun t => t +:+ Stub.nl)
                                 [Stub.init_ok_text; Stub.debug_text;
                                  Stub.result_1_text];
              Client.exits_on_terminate := true |}
           Stub.init_ok
           (map (fun t => t +:+ Stub.nl) [Stub.debug_text; Stub.result_1_text])
           [Client.Read (Stub.init_ok_text +:+ Stub.nl)] false
           eq_refl eq_refl eq_refl eq_refl eq_refl).
Defined.

(** The stub server lists no tools. *)
Lemma list_tools_result_witness :
  fst (Client.list_tools (H := Stub.noisy_server)
         (Stub.connected Stub.noisy_server)) = Ok (JList []).
Proof.
  exact (list_tools_result (H := Stub.noisy_server)
           (Stub.connected Stub.noisy_server)
           {| Client.stdout := [Stub.debug_text +:+ Stub.nl;
                                Stub.result_1_text +:+ Stub.nl];
              Client.exits_on_terminate := true |}
           {[ "jsonrpc" := JStr "2.0"; "id" := JInt 1;
              "result" := JDict {[ "tools" := JList [] ]} ]}
           []
           [Client.Read (Stub.debug_text +:+ Stub.nl);
            Client.Stderr Stub.debug_text;
            Client.Read (Stub.result_1_text +:+ Stub.nl)]
           eq_refl eq_refl eq_refl eq_refl).
Defined.

Lemma unknown_transport_witness :
  Client.connect (H := Stub.silent_server) StubWorld.websocket_client
    = (Ok tt, StubWorld.websocket_client) /\
  Client._send_request (H := Stub.silent_server) "tools/list" (JDict ∅)
    StubWorld.websocket_client =
    (Raise (Exn LinkedInMCPError (MFmt "Unknown transport: " (JStr "websocket"))),
     StubWorld.websocket_client).
Proof.
  apply (unknown_transport (H := Stub.silent_server)
           StubWorld.websocket_client "tools/list" (JDict ∅));
    discriminate.
Defined.

Lemma failed_call_and_counter_witness :
  let '(r, self') :=
    Client._send_request_http (H := StubWorld.closing_server)
      "tools/list" (JDict ∅) Stub.http_client in
  r = Raise (Exn LinkedInMCPConnectionError
                 (MFmtExn "HTTP request failed: " RequestError
                          (MLit "connection refused"))) /\
  Client.request_id self' = 1 /\
  Client.sent_ids (Client.trace self') = [JInt 1].
Proof.
  apply (proj2 (failed_call_and_counter (H := StubWorld.closing_server)
                  Stub.http_client "tools/list" (JDict ∅))
               "connection refused").
  reflexivity.
Defined.

Lemma http_body_not_json_witness :
  let r := fst (Client._send_request_http (H := StubWorld.html_endpoint)
                  "tools/list" (JDict ∅) Stub.http_client) in
  raises r JSONDecodeError /\ ~ raises r LinkedInMCPConnectionError.
Proof.
  apply (http_body_not_json (H := StubWorld.html_endpoint)
           Stub.http_client "tools/list" (JDict ∅) 200 StubWorld.html_page).
  - reflexivity.
  - lia.
  - reflexivity.
Defined.

Lemma read_returns_first_message_witness :
  exists noise line,
    [Stub.debug_text +:+ Stub.nl; Stub.result_1_text +:+ Stub.nl]
      = noise ++ line :: [] /\
    Client.json_loads (H := Stub.noisy_server) (strip line)
      = Ok Stub.result_1 /\
    strip line <> "" /\
    Forall (fun l => strip l = "" \/
                     Client.not_json (H := Stub.noisy_server) (strip l)
                       = true) noise.
Proof.
  apply (read_returns_first_message (H := Stub.noisy_server)
           [Stub.debug_text +:+ Stub.nl; Stub.result_1_text +:+ Stub.nl]
           Stub.result_1 []
           [Client.Read (Stub.debug_text +:+ Stub.nl);
            Client.Stderr Stub.debug_text;
            Client.Read (Stub.result_1_text +:+ Stub.nl)]).
  reflexivity.
Defined.

Lemma calls_take_consecutive_ids_witness :
  Client.sent_ids
    (Client.trace
       (Client.calls (H := StubWorld.closing_server)
          [("tools/list", JDict ∅); ("tools/call", JDict ∅);
           ("tools/list", JDict ∅)]
          Stub.http_client))
  = [JInt 1; JInt 2; JInt 3].
Proof.
  apply (calls_take_consecutive_ids (H := StubWorld.closing_server)
           [("tools/list", JDict ∅); ("tools/call", JDict ∅);
            ("tools/list", JDict ∅)]
           Stub.http_client).
  right. reflexivity.
Defined.

Lemma disconnect_trace_witness :
  Client.trace (snd (Client.disconnect
                       (Stub.connected Stub.noisy_server))) =
    Client.trace (Stub.connected Stub.noisy_server)
    ++ [Client.Terminate; Client.Wait true].
Proof.
  apply (disconnect_trace
           (Stub.connected Stub.noisy_server)
           {| Client.stdout := [Stub.debug_text +:+ Stub.nl;
                                Stub.result_1_text +:+ Stub.nl];
              Client.exits_on_terminate := true |}).
  reflexivity.
Defined.

Lemma undecodable_line_raises_witness :
  raises (Client.read_loop (H := Stub.noisy_server)
            [StubWorld.latin1_line; Stub.result_1_text +:+ Stub.nl]).1.1
         UnicodeDecodeError.
Proof.
  apply (undecodable_line_raises (H := Stub.noisy_server)
           StubWorld.latin1_line [Stub.result_1_text +:+ Stub.nl]).
  - discriminate.
  - reflexivity.
Defined.

(** On the expired-session site the page is logged in exactly when the
    cookie has been applied. *)
Lemma cookie_applied h :
  In (Browser.LoginWithCookie StubSiteExpired.cookie) h ->
  existsb StubSiteExpired.is_login h = true.
Proof.
  intros Hin. apply existsb_exists.
  exists (Browser.LoginWithCookie StubSiteExpired.cookie).
  split; [exact Hin|reflexivity].
Qed.

Lemma cookie_not_applied h :
  ~ In (Browser.LoginWithCookie StubSiteExpired.cookie) h ->
  existsb StubSiteExpired.is_login h = false.
Proof.
  intros Hnot. destruct (existsb StubSiteExpired.is_login h) eqn:He;
    [|reflexivity].
  apply existsb_exists in He as (ev & Hin & Hev).
  destruct ev; try discriminate.
  simpl in Hev. apply String.eqb_eq in Hev as ->. contradiction.
Qed.

(** After a first authentication the second one only checks the login. *)
Lemma existing_browser_is_reused_witness :
  Browser.ensure_authenticated (H := StubSite.session_file)
    StubSiteExpired.authenticated
  = (Ok tt, Browser.log Browser.IsLoggedIn StubSiteExpired.authenticated).
Proof.
  exact (existing_browser_is_reused (H := StubSite.session_file)
           StubSiteExpired.authenticated
           {| Browser.headless := true;
              Browser.default_timeout := Some 30000;
              Browser.blocking := true |}
           eq_refl).
Defined.

Lemma expired_session_falls_back_to_cookie_witness :
  let '(r, g') :=
    Browser.ensure_authenticated (H := StubSiteExpired.site) Browser.initial in
  r = Ok tt /\
  Browser.trace g' =
    [Browser.Start true;
     Browser.PathExists "/home/user/.linkedin-mcp/session.json";
     Browser.LoadSession "/home/user/.linkedin-mcp/session.json";
     Browser.Route; Browser.SetDefaultTimeout 120000;
     Browser.Goto "https://www.linkedin.com/feed/"; Browser.IsLoggedIn;
     Browser.GetCookie; Browser.Route; Browser.SetDefaultTimeout 120000;
     Browser.LoginWithCookie StubSiteExpired.cookie;
     Browser.SetDefaultTimeout 30000; Browser.IsLoggedIn].
Proof.
  exact (expired_session_falls_back_to_cookie (H := StubSiteExpired.site)
           Browser.initial StubSiteExpired.cookie
           eq_refl (fun _ _ => eq_refl) (fun _ => eq_refl) (fun _ => eq_refl)
           (fun E => eq_ind "li_at=AQEDAT"%string
                       (fun s => match s with
                                 | EmptyString => False
                                 | String _ _ => True
                                 end) I _ E)
           cookie_applied cookie_not_applied (fun F => F)).
Defined.

Lemma created_browser_is_configured_witness :
  Browser._browser
    (snd (Browser.get_or_create_browser (H := StubSite.cookie_only)
            (Some false) None Browser.initial))
  = Some {| Browser.headless := false;
            Browser.default_timeout := Some 30000;
            Browser.blocking := true |} /\
  {| Browser.headless := false;
     Browser.default_timeout := Some 30000;
     Browser.blocking := true |}
  = {| Browser.headless := default (Browser._headless Browser.initial) (Some false);
       Browser.default_timeout :=
         Some (Browser.config_default_timeout (Site := StubSite.cookie_only));
       Browser.blocking := true |}.
Proof.
  apply (created_browser_is_configured (H := StubSite.cookie_only)
           Browser.initial (Some false) None); reflexivity.
Defined.

(** With no credentials the creation ends in [AuthenticationError]; where
    the directory of the session file may not be searched, it ends in the
    [PermissionError] of [exists()], although a cookie is there. *)
Lemma creation_raises_only_authentication_error_witness :
  match Browser.get_or_create_browser (H := StubSite.no_credentials)
          None None Browser.initial with
  | (Ok _, _) => False
  | (Raise e, g') =>
      Browser._browser g' <> None /\
      (e = Exn AuthenticationError
               (MLit "No authentication found. Run with --get-session to create a session.")
       \/ @Ok bool false = Raise e
       \/ exists h : list Browser.event, @Ok (option string) None = Raise e)
  end /\
  match Browser.get_or_create_browser (H := StubSiteLocked.site)
          None None Browser.initial with
  | (Ok _, _) => False
  | (Raise e, g') =>
      Browser._browser g' <> None /\
      (e = Exn AuthenticationError
               (MLit "No authentication found. Run with --get-session to create a session.")
       \/ @Raise bool StubSiteLocked.denied = Raise e
       \/ exists h : list Browser.event,
            @Ok (option string) (Some "li_at=AQEDAT"%string) = Raise e)
  end.
Proof.
  split.
  - exact (creation_raises_only_authentication_error
             (H := StubSite.no_credentials) Browser.initial None None eq_refl).
  - exact (creation_raises_only_authentication_error
             (H := StubSiteLocked.site) Browser.initial None None eq_refl).
Defined.

Lemma close_browser_forgets_witness :
  let '(r, g1) :=
    Browser.close_browser (H := StubSite.session_file)
      StubSiteExpired.authenticated in
  Browser.trace g1
    = Browser.trace StubSiteExpired.authenticated ++ [Browser.Close] /\
  r = Ok tt /\ Browser._browser g1 = None /\
  Browser.close_browser (H := StubSite.session_file) g1 = (Ok tt, g1).
Proof.
  exact (close_browser_forgets (H := StubSite.session_file)
           StubSiteExpired.authenticated
           {| Browser.headless := true;
              Browser.default_timeout := Some 30000;
              Browser.blocking := true |}
           eq_refl).
Defined.

Lemma close_then_authenticate_witness :
  let '(r, g') :=
    (Browser.close_browser (H := StubSite.session_file);;
     Browser.ensure_authenticated (H := StubSite.session_file))
      StubSiteExpired.authenticated in
  r = Ok tt /\
  Browser.trace g' =
    Browser.trace StubSiteExpired.authenticated ++
    [Browser.Close; Browser.Start true;
     Browser.PathExists "/home/user/.linkedin-mcp/session.json";
     Browser.LoadSession "/home/user/.linkedin-mcp/session.json";
     Browser.Route; Browser.SetDefaultTimeout 120000;
     Browser.Goto "https://www.linkedin.com/feed/"; Browser.IsLoggedIn;
     Browser.SetDefaultTimeout 30000; Browser.IsLoggedIn].
Proof.
  exact (close_then_authenticate (H := StubSite.session_file)
           StubSiteExpired.authenticated
           {| Browser.headless := true;
              Browser.default_timeout := Some 30000;
              Browser.blocking := true |}
           eq_refl (fun _ _ => eq_refl) (fun _ => eq_refl)
           (fun _ _ => eq_refl)).
Defined.

Lemma failed_resolution_is_not_retried_witness :
  let '(r1, g1) :=
    Browser.ensure_authenticated (H := StubSite.no_credentials)
      Browser.initial in
  let '(r2, g2) :=
    Browser.ensure_authenticated (H := StubSite.no_credentials) g1 in
  raises r1 AuthenticationError /\
  Browser.trace g2 = Browser.trace g1 ++ [Browser.IsLoggedIn] /\
  (false = false -> raises r2 AuthenticationError).
Proof.
  exact (failed_resolution_is_not_retried (H := StubSite.no_credentials)
           Browser.initial eq_refl (fun _ _ => eq_refl) (fun _ => eq_refl)
           eq_refl).
Defined.

(** Two keywords: four entries. *)
Lemma search_endpoint_count_witness :
  Backend.search_endpoint (H := StubBackend.session)
    [JStr "python"; JStr "rust"] (JStr "India") 10 JNull
  = Backend.Respond
      (JDict {[ "status" := JStr "success";
                "count" := JInt 4;
                "jobs" :=
                  JList
                    [JList [JDict {[ "title" := JStr "Engineer";
                                     "url" := JStr StubBackend.job_url ]}];
                     JDict ∅;
                     JList [JDict {[ "title" := JStr "Engineer";
                                     "url" := JStr StubBackend.job_url ]}];
                     JDict ∅] ]}).
Proof.
  rewrite (search_endpoint_count (H := StubBackend.session)
             [JStr "python"; JStr "rust"] (JStr "India") 10 JNull eq_refl).
  vm_compute. reflexivity.
Defined.

Lemma name_round_trip_witness :
  Utils.company_name_of "https://www.linkedin.com/company/apple/"
    = Some "apple"%string /\
  Utils.username_of "https://www.linkedin.com/in/priyanshu-kumar/details"
    = Some "priyanshu-kumar"%string.
Proof.
  split.
  - exact (proj1 (name_round_trip "https://www." "apple" "/"
                    eq_refl eq_refl (or_intror (ex_intro _ ""%string eq_refl)))
                 eq_refl).
  - exact (proj2 (name_round_trip "https://www." "priyanshu-kumar" "/details"
                    eq_refl eq_refl
                    (or_intror (ex_intro _ "details"%string eq_refl)))
                 eq_refl).
Defined.

(** The stub server's answer has no ["error"] key: it is the data of a
    success. *)
Lemma company_profile_endpoint_outcome_witness :
  Backend.company_profile_endpoint (H := StubBackend.session)
    "https://www.linkedin.com/company/apple/"
  = Backend.Respond
      (JDict {[ "success" := JBool true; "data" := StubBackend.details ]}).
Proof.
  destruct (company_profile_endpoint_outcome (H := StubBackend.session)
              "https://www.linkedin.com/company/apple/" eq_refl)
    as (name & Hname & Houtcome).
  vm_compute in Hname. injection Hname as <-.
  exact Houtcome.
Defined.
